(** * MOF reconstruction evaluator: a shallow embedding of
      [src/eval/mof_reconstruction.py]

    The module converts bundles of numpy arrays into pymatgen structures
    ([array_dict_to_structure]), scores every prediction against its ground
    truth with pymatgen's [StructureMatcher] ([_get_metrics], [get_metrics])
    and renders one report row per sample ([get_wandb_table]).

    Conventions of the embedding.
    - A Python call that may raise returns a [result]; the evaluator's
      methods thread the object explicitly ([self] in, [self] out), so that
      what a raising call has already assigned stays visible.
    - Numbers stored in arrays are rationals ([Q]); the distances handed
      around by the matcher and by torch are [pyfloat]s, rationals extended
      with the two infinities.  IEEE rounding and NaN are outside the model.
    - pymatgen ([Lattice], [Structure], [StructureMatcher]), the file
      system, the image renderer and Python's float formatting are
      collaborators: they are variables of the section below, every theorem
      holds for each of their behaviours. *)

From Stdlib Require Import List ZArith QArith Bool Arith Lia.
From Stdlib Require String DecimalString.
Import ListNotations String.StringSyntax.

Local Open Scope nat_scope.
Local Open Scope string_scope.
Local Open Scope list_scope.

Abbreviation string := String.string.

(** ** Exceptions and results *)

(** The exception classes the module can meet.  [LibraryError] stands for
    whatever a collaborator raises on its own account (pymatgen's
    [ValueError], an [OSError] of the file system, ...). *)
Inductive exn : Type :=
| KeyError (key : string)
| TypeError
| IndexError
| AttributeError
| AssertionError
| LibraryError (code : nat).

Inductive result (A : Type) : Type :=
| Ok (a : A)
| Raise (e : exn).

Arguments Ok {A} a.
Arguments Raise {A} e.

Definition bind {A B : Type} (r : result A) (k : A -> result B) : result B :=
  match r with
  | Ok a => k a
  | Raise e => Raise e
  end.

Notation "x <- r ;; k" := (bind r (fun x => k))
  (at level 61, r at next level, right associativity).

(** A statement executed for its effect only: [None] when it completes. *)
Definition run (o : option exn) : result unit :=
  match o with
  | None => Ok tt
  | Some e => Raise e
  end.

(** [d[key]] on a dict: the field is [None] when the key is absent. *)
Definition getitem {A : Type} (key : string) (field : option A) : result A :=
  match field with
  | Some v => Ok v
  | None => Raise (KeyError key)
  end.

(** [l[i]] on a list with a non-negative index. *)
Definition index {A : Type} (l : list A) (i : nat) : result A :=
  match nth_error l i with
  | Some v => Ok v
  | None => Raise IndexError
  end.

(** ** numpy arrays and the Python values they convert to *)

Record ndarray : Type := mk_ndarray {
  shape : list nat;
  data : list Q
}.

Definition zeros_like (a : ndarray) : ndarray :=
  {| shape := shape a; data := map (fun _ => 0%Q) (data a) |}.

Definition ones_like (a : ndarray) : ndarray :=
  {| shape := shape a; data := map (fun _ => 1%Q) (data a) |}.

(** [a.squeeze()]: the axes of length one are dropped. *)
Definition squeeze (a : ndarray) : ndarray :=
  {| shape := filter (fun n => negb (Nat.eqb n 1)) (shape a); data := data a |}.

(** What [tolist] produces: a number for a 0-d array, nested lists
    otherwise. *)
#[warnings="-register-all"]
Inductive pyobj : Type :=
| PyNum (q : Q)
| PyList (l : list pyobj).

Fixpoint chunks (n size : nat) (d : list Q) : list (list Q) :=
  match n with
  | O => []
  | S n' => firstn size d :: chunks n' size (skipn size d)
  end.

Definition numel (shp : list nat) : nat := fold_right Nat.mul 1 shp.

Fixpoint tolist_shape (shp : list nat) (d : list Q) : pyobj :=
  match shp with
  | [] => PyNum (hd 0%Q d)
  | n :: rest => PyList (map (tolist_shape rest) (chunks n (numel rest) d))
  end.

Definition tolist (a : ndarray) : pyobj := tolist_shape (shape a) (data a).

(** [len(a)]: the first axis; a 0-d array has no length. *)
Definition len (a : ndarray) : result nat :=
  match shape a with
  | [] => Raise TypeError
  | n :: _ => Ok n
  end.

(** [for t in a]: the sub-arrays along the first axis. *)
Definition iterate (a : ndarray) : result (list ndarray) :=
  match shape a with
  | [] => Raise TypeError
  | n :: rest => Ok (map (mk_ndarray rest) (chunks n (numel rest) (data a)))
  end.

(** [n * v] with an integer on the left: a number is scaled, a list is
    repeated [n] times. *)
Definition py_mul (n : nat) (v : pyobj) : pyobj :=
  match v with
  | PyNum q => PyNum (inject_Z (Z.of_nat n) * q)
  | PyList l => PyList (concat (repeat l n))
  end.

(** [v + w]: numbers add, lists concatenate, a list and a number do not
    mix. *)
Definition py_add (v w : pyobj) : result pyobj :=
  match v, w with
  | PyNum p, PyNum q => Ok (PyNum (p + q))
  | PyList l, PyList m => Ok (PyList (l ++ m))
  | _, _ => Raise TypeError
  end.

(** [*v] in a call: only an iterable unpacks. *)
Definition star (v : pyobj) : result (list pyobj) :=
  match v with
  | PyList l => Ok l
  | PyNum _ => Raise TypeError
  end.

(** [int(q)] truncates towards zero, [str] prints in decimal. *)
Definition py_int (q : Q) : Z := Z.quot (Qnum q) (Zpos (Qden q)).

Definition py_str (z : Z) : string := DecimalString.NilZero.string_of_int (Z.to_int z).

(** [os.path.join(dir, name)] for a relative [name]. *)
Definition ends_with_slash (s : string) : bool :=
  String.eqb (String.substring (String.length s - 1) 1 s) "/".

Definition os_path_join (dir name : string) : string :=
  if String.eqb dir "" then name
  else if ends_with_slash dir then String.append dir name
  else String.append dir (String.append "/" name).

(** ** Distances *)

Inductive pyfloat : Type :=
| Fin (q : Q)
| PosInf
| NegInf.

(** [float("inf")]. *)
Definition inf : pyfloat := PosInf.

(** [torch.isinf]: true on both infinities. *)
Definition isinf (d : pyfloat) : bool :=
  match d with
  | Fin _ => false
  | PosInf | NegInf => true
  end.

Definition finite (d : pyfloat) : bool := negb (isinf d).

(** ** The array bundle

    [x: dict[str, np.ndarray]] with the five keys of the docstring; a field
    is [None] when the dict lacks the key.  [sample_idx] is an opaque
    identifier, never used as an array. *)
Record ArrayDict : Type := mk_ArrayDict {
  frac_coords : option ndarray;
  atom_types : option ndarray;
  lengths : option ndarray;
  angles : option ndarray;
  sample_idx : option Z
}.

(** Modelled from the spec: [joblib_map] of [src.utils], which is not among
    the sources.  Section 4.2, step 2: it "converts every queued prediction
    and ground-truth bundle to a CrystalStructure via the Structure Builder,
    preserving positional order", each element on its own.  An exception
    raised by one call is raised to the caller, as joblib does. *)
Fixpoint joblib_map {A B : Type} (f : A -> result B) (l : list A)
  : result (list B) :=
  match l with
  | [] => Ok []
  | a :: l' => b <- f a ;; bs <- joblib_map f l' ;; Ok (b :: bs)
  end.

(** ** The collaborators and the structure builder *)

(** What [StructureMatcher.get_rms_dist] hands back: an exception, [None],
    or a sequence of floats (pymatgen: the pair of the rms and the largest
    distance). *)
Inductive matcher_result : Type :=
| MRaise (e : exn)
| MNone
| MSeq (l : list pyfloat).

(** [StructureMatcher(stol=..., angle_tol=..., ltol=...)]. *)
Record StructureMatcher : Type := mk_StructureMatcher {
  stol : Q;
  angle_tol : Q;
  ltol : Q
}.

(** pymatgen's lattice and its constructor [Lattice.from_parameters(a, b, c,
    alpha, beta, gamma)]; the last argument holds what is passed
    positionally beyond the six ([vesta], [pbc] in releases where they are
    not keyword-only). *)
Class Crystallography : Type := {
  Lattice : Type;
  from_parameters :
    pyobj -> pyobj -> pyobj -> pyobj -> pyobj -> pyobj -> list pyobj ->
    result Lattice
}.

(** [struct.properties], with the two entries the module sets. *)
Record Properties : Type := mk_Properties {
  prop_sample_idx : Z;
  prop_valid : bool
}.

Record Structure `{Crystallography} : Type := mk_Structure {
  lattice : Lattice;
  species : ndarray;
  coords : ndarray;
  properties : Properties
}.

Arguments mk_Structure {_} lattice species coords properties.

(** The remaining collaborators.
    - [Structure_init]: the checks of [Structure(lattice=..., species=...,
      coords=..., coords_are_cartesian=False)], [None] when the structure
      is built;
    - [os_makedirs], [struct_to]: [os.makedirs(dir, exist_ok=True)] and
      [struct.to(path)];
    - [get_rms_dist]: [matcher.get_rms_dist(pred, gt)], a function of its
      arguments;
    - [make_wandb_image]: [ase_view.make_wandb_image(struct,
      center_in_uc=False)];
    - [format_2f]: the format specification [:.2f] on a number. *)
Class Collaborators `{Crystallography} : Type := {
  Structure_init : Lattice -> ndarray -> ndarray -> option exn;
  os_makedirs : string -> option exn;
  struct_to : Structure -> string -> option exn;
  get_rms_dist : StructureMatcher -> Structure -> Structure -> matcher_result;
  Image : Type;
  make_wandb_image : Structure -> result Image;
  format_2f : Q -> string
}.

Section Evaluation.

Context `{Collaborators}.

(** The call [Lattice.from_parameters( *args )]: Python binds the first
    six positional arguments and accepts at most two more. *)
Definition call_from_parameters (args : list pyobj) : result Lattice :=
  match args with
  | a :: b :: c :: alpha :: beta :: gamma :: more =>
      if length more <=? 2
      then from_parameters a b c alpha beta gamma more
      else Raise TypeError
  | _ => Raise TypeError
  end.

(** The argument [Lattice.from_parameters( *(lengths + angles))] of both
    calls of [Structure]. *)
Definition lattice_from (lengths angles : pyobj) : result Lattice :=
  params <- py_add lengths angles ;;
  args <- star params ;;
  call_from_parameters args.

(** Whether the dict holds the five keys the function reads. *)
Definition has_keys (x : ArrayDict) : bool :=
  match frac_coords x, atom_types x, lengths x, angles x, sample_idx x with
  | Some _, Some _, Some _, Some _, Some _ => true
  | _, _, _, _, _ => false
  end.

(** [os.path.join(save_dir_name, f"mof_{x['sample_idx']}.cif")]. *)
Definition cif_path (save_dir_name : string) (sample_idx : Z) : string :=
  os_path_join save_dir_name
    (String.append "mof_" (String.append (py_str sample_idx) ".cif")).

(** Lines 261-277: the body of [try]. *)
Definition try_block (x : ArrayDict) (save : bool) (save_dir_name : string)
  : result Structure :=
  frac_coords <- getitem "frac_coords" (frac_coords x) ;;
  atom_types <- getitem "atom_types" (atom_types x) ;;
  l <- getitem "lengths" (lengths x) ;;
  let lengths := tolist (squeeze l) in
  a <- getitem "angles" (angles x) ;;
  let angles := tolist (squeeze a) in
  sample_idx <- getitem "sample_idx" (sample_idx x) ;;
  lat <- lattice_from lengths angles ;;
  _ <- run (Structure_init lat atom_types frac_coords) ;;
  let struct :=
    {| lattice := lat; species := atom_types; coords := frac_coords;
       properties := {| prop_sample_idx := sample_idx;
                        prop_valid := true |} |} in
  if save then
    _ <- run (os_makedirs save_dir_name) ;;
    _ <- run (struct_to struct (cif_path save_dir_name sample_idx)) ;;
    Ok struct
  else Ok struct.

(** Lines 281-294: the handler of the bare [except].  In
    [100 * np.ones_like(x["lengths"]).squeeze().tolist()] the method
    calls bind tighter than [*]: the product is taken of the Python value
    that [tolist] returns. *)
Definition except_block (x : ArrayDict) : result Structure :=
  fc <- getitem "frac_coords" (frac_coords x) ;;
  let frac_coords := zeros_like fc in
  ty <- getitem "atom_types" (atom_types x) ;;
  let atom_types := zeros_like ty in
  l <- getitem "lengths" (lengths x) ;;
  let lengths := py_mul 100 (tolist (squeeze (ones_like l))) in
  a <- getitem "angles" (angles x) ;;
  let angles := py_mul 90 (tolist (squeeze (ones_like a))) in
  sample_idx <- getitem "sample_idx" (sample_idx x) ;;
  lat <- lattice_from lengths angles ;;
  _ <- run (Structure_init lat atom_types frac_coords) ;;
  Ok {| lattice := lat; species := atom_types; coords := frac_coords;
        properties := {| prop_sample_idx := sample_idx;
                         prop_valid := false |} |}.

Definition array_dict_to_structure
  (x : ArrayDict) (save : bool) (save_dir_name : string) : result Structure :=
  match try_block x save save_dir_name with
  | Ok struct => Ok struct
  | Raise _ => except_block x
  end.

(** ** The evaluator *)

(** The object's attributes.  [rms_dists] exists only once [get_metrics]
    has assigned it: [None] before. *)
Record MOFReconstructionEvaluator : Type := mk_Evaluator {
  matcher : StructureMatcher;
  pred_arrays_list : list ArrayDict;
  gt_arrays_list : list ArrayDict;
  pred_mof_list : list Structure;
  gt_mof_list : list Structure;
  device : string;
  rms_dists : option (list pyfloat)
}.

Definition set_pred_arrays_list self v : MOFReconstructionEvaluator :=
  mk_Evaluator (matcher self) v (gt_arrays_list self) (pred_mof_list self)
    (gt_mof_list self) (device self) (rms_dists self).

Definition set_gt_arrays_list self v : MOFReconstructionEvaluator :=
  mk_Evaluator (matcher self) (pred_arrays_list self) v (pred_mof_list self)
    (gt_mof_list self) (device self) (rms_dists self).

Definition set_pred_mof_list self v : MOFReconstructionEvaluator :=
  mk_Evaluator (matcher self) (pred_arrays_list self) (gt_arrays_list self) v
    (gt_mof_list self) (device self) (rms_dists self).

Definition set_gt_mof_list self v : MOFReconstructionEvaluator :=
  mk_Evaluator (matcher self) (pred_arrays_list self) (gt_arrays_list self)
    (pred_mof_list self) v (device self) (rms_dists self).

Definition set_rms_dists self v : MOFReconstructionEvaluator :=
  mk_Evaluator (matcher self) (pred_arrays_list self) (gt_arrays_list self)
    (pred_mof_list self) (gt_mof_list self) (device self) v.

(** [__init__]; the defaults are [stol=0.5, angle_tol=10, ltol=0.3,
    device="cpu"]. *)
Definition __init__ (stol angle_tol ltol : Q) (device : string)
  : MOFReconstructionEvaluator :=
  mk_Evaluator (mk_StructureMatcher stol angle_tol ltol) [] [] [] [] device
    None.

Definition append_pred_array self (pred : ArrayDict) :=
  set_pred_arrays_list self (pred_arrays_list self ++ [pred]).

Definition append_gt_array self (gt : ArrayDict) :=
  set_gt_arrays_list self (gt_arrays_list self ++ [gt]).

(** [clear] empties the four lists; it does not touch [rms_dists]. *)
Definition clear self : MOFReconstructionEvaluator :=
  let self := set_pred_arrays_list self [] in
  let self := set_gt_arrays_list self [] in
  let self := set_pred_mof_list self [] in
  set_gt_mof_list self [].

(** [joblib_map(partial(array_dict_to_structure, save=save,
    save_dir_name=dir), arrays, ...)]. *)
Definition convert (save : bool) (dir : string) (arrays : list ArrayDict)
  : result (list Structure) :=
  joblib_map (fun x => array_dict_to_structure x save dir) arrays.

(** The predictions are converted and assigned first, the ground truths
    after them. *)
Definition _arrays_to_structures (save : bool) (save_dir : string) self
  : MOFReconstructionEvaluator * result unit :=
  match convert save (String.append save_dir "/pred") (pred_arrays_list self)
  with
  | Raise e => (self, Raise e)
  | Ok preds =>
      let self := set_pred_mof_list self preds in
      match convert save (String.append save_dir "/gt") (gt_arrays_list self)
      with
      | Raise e => (self, Raise e)
      | Ok gts => (set_gt_mof_list self gts, Ok tt)
      end
  end.

(** Lines 97-105.  [except Exception] takes whatever the matcher raises,
    and so does it an [IndexError] of [rms_dist[0]]: the method returns on
    every path.  The second component is ghost state: the calls made to the
    matcher, in order. *)
Definition _get_metrics self (pred gt : Structure) (is_valid : bool)
  : pyfloat * list (Structure * Structure) :=
  if negb is_valid then (inf, [])
  else
    let calls := [(pred, gt)] in
    match get_rms_dist (matcher self) pred gt with
    | MRaise _ => (inf, calls)
    | MNone => (inf, calls)
    | MSeq l =>
        match index l 0 with
        | Ok d => (d, calls)
        | Raise _ => (inf, calls)
        end
    end.

Definition rms_dists_list self : list pyfloat :=
  match rms_dists self with
  | Some l => l
  | None => []
  end.

(** Lines 128-131, the loop over [range(len(self.pred_mof_list))] from
    the indices still to visit. *)
Fixpoint rms_loop self (validity : list bool) (idxs : list nat)
  : MOFReconstructionEvaluator * result unit :=
  match idxs with
  | [] => (self, Ok tt)
  | i :: rest =>
      match index (pred_mof_list self) i with
      | Raise e => (self, Raise e)
      | Ok pred =>
          match index (gt_mof_list self) i with
          | Raise e => (self, Raise e)
          | Ok gt =>
              match index validity i with
              | Raise e => (self, Raise e)
              | Ok is_valid =>
                  let d := fst (_get_metrics self pred gt is_valid) in
                  rms_loop
                    (set_rms_dists self (Some (rms_dists_list self ++ [d])))
                    validity rest
              end
          end
      end
  end.

Record Metrics : Type := mk_Metrics {
  match_rate : list Z;
  rms_dist : list pyfloat
}.

(** [(~torch.isinf(t)).long()]. *)
Definition not_isinf_long (t : list pyfloat) : list Z :=
  map (fun d => if isinf d then 0%Z else 1%Z) t.

(** [t[~torch.isinf(t)]]. *)
Definition select_not_isinf (t : list pyfloat) : list pyfloat :=
  filter (fun d => negb (isinf d)) t.

(** Lines 115-144.  A torch tensor is the list of its elements; building
    one on [self.device] is taken to succeed. *)
Definition get_metrics (save : bool) (save_dir : string) self
  : MOFReconstructionEvaluator * result Metrics :=
  if negb (length (pred_arrays_list self) =? length (gt_arrays_list self))
  then (self, Raise AssertionError)
  else
    match _arrays_to_structures save save_dir self with
    | (self, Raise e) => (self, Raise e)
    | (self, Ok _) =>
        let validity :=
          map (fun c => prop_valid (properties (fst c))
                        && prop_valid (properties (snd c)))
              (combine (pred_mof_list self) (gt_mof_list self)) in
        let self := set_rms_dists self (Some []) in
        match rms_loop self validity
                (seq 0 (length (pred_mof_list self))) with
        | (self, Raise e) => (self, Raise e)
        | (self, Ok _) =>
            let t := rms_dists_list self in
            let match_rate := not_isinf_long t in
            if length (select_not_isinf t) =? 0
            then (self, Ok {| match_rate := match_rate;
                              rms_dist := repeat (Fin 10) (length match_rate) |})
            else (self, Ok {| match_rate := match_rate;
                              rms_dist := select_not_isinf t |})
        end
    end.

(** ** Names for what the statements about [get_metrics] speak of *)

(** The distance of one pair as [get_metrics] computes it: the validity of
    line 124 and the call of line 130. *)
Definition pair_distance self (c : Structure * Structure) : pyfloat :=
  fst (_get_metrics self (fst c) (snd c)
         (prop_valid (properties (fst c)) && prop_valid (properties (snd c)))).

(** How many distances are finite. *)
Fixpoint count_finite (t : list pyfloat) : nat :=
  match t with
  | [] => 0
  | d :: t' => (if finite d then 1 else 0) + count_finite t'
  end.

(** ** The report table *)

(** A list comprehension whose element expression may raise. *)
Fixpoint comprehension {A B : Type} (f : A -> result B) (l : list A)
  : result (list B) :=
  match l with
  | [] => Ok []
  | a :: l' => b <- f a ;; bs <- comprehension f l' ;; Ok (b :: bs)
  end.

(** [str(int(t))] for an element [t] of an array: [int] wants a single
    number. *)
Definition str_int_element (t : ndarray) : result string :=
  if numel (shape t) =? 1 then Ok (py_str (py_int (hd 0%Q (data t))))
  else Raise TypeError.

(** [f"{l:.2f}"] for an element [l] of an array: only a scalar takes the
    format. *)
Definition format_element (t : ndarray) : result string :=
  match shape t with
  | [] => Ok (format_2f (hd 0%Q (data t)))
  | _ :: _ => Raise TypeError
  end.

(** [" ".join([str(int(t)) for t in a])]. *)
Definition atom_types_text (a : ndarray) : result string :=
  ts <- iterate a ;;
  ss <- comprehension str_int_element ts ;;
  Ok (String.concat " " ss).

(** [" ".join([f"{l:.2f}" for l in a.squeeze()])]. *)
Definition squeezed_text (a : ndarray) : result string :=
  ts <- iterate (squeeze a) ;;
  ss <- comprehension format_element ts ;;
  Ok (String.concat " " ss).

(** The 2D rendering of a structure, [None] when the renderer raises. *)
Definition render (struct : Structure) : option Image :=
  match make_wandb_image struct with
  | Ok img => Some img
  | Raise _ => None
  end.

(** One row of the table, in the order of the 14 columns. *)
Record Row : Type := mk_Row {
  col_epoch : Z;
  col_sample_idx : Z;
  col_num_atoms : nat;
  col_rmsd : pyfloat;
  col_match : bool;
  col_valid : bool;
  col_true_atom_types : string;
  col_pred_atom_types : string;
  col_true_lengths : string;
  col_pred_lengths : string;
  col_true_angles : string;
  col_pred_angles : string;
  col_true_2d : option Image;
  col_pred_2d : option Image
}.

(** [rmsd != float("inf")]. *)
Definition ne_inf (d : pyfloat) : bool :=
  match d with
  | PosInf => false
  | _ => true
  end.

(** Lines 167-234: the body of the loop for one [idx]. *)
Definition table_row (current_epoch : Z) self (idx : nat) : result Row :=
  gt_mof <- index (gt_mof_list self) idx ;;
  let sample_idx := prop_sample_idx (properties gt_mof) in
  pred_mof <- index (pred_mof_list self) idx ;;
  if negb (Z.eqb sample_idx (prop_sample_idx (properties pred_mof)))
  then Raise AssertionError
  else
    pred_arrays <- index (pred_arrays_list self) idx ;;
    pred_types <- getitem "atom_types" (atom_types pred_arrays) ;;
    num_atoms <- len pred_types ;;
    t <- match rms_dists self with
         | Some t => Ok t
         | None => Raise AttributeError
         end ;;
    rmsd <- index t idx ;;
    let matched := ne_inf rmsd in
    gt_arrays <- index (gt_arrays_list self) idx ;;
    gt_types <- getitem "atom_types" (atom_types gt_arrays) ;;
    true_atom_types <- atom_types_text gt_types ;;
    pred_atom_types <- atom_types_text pred_types ;;
    gt_lengths <- getitem "lengths" (lengths gt_arrays) ;;
    true_lengths <- squeezed_text gt_lengths ;;
    gt_angles <- getitem "angles" (angles gt_arrays) ;;
    true_angles <- squeezed_text gt_angles ;;
    pred_lengths_arr <- getitem "lengths" (lengths pred_arrays) ;;
    pred_lengths <- squeezed_text pred_lengths_arr ;;
    pred_angles_arr <- getitem "angles" (angles pred_arrays) ;;
    pred_angles <- squeezed_text pred_angles_arr ;;
    let true_2d := render gt_mof in
    let pred_2d := render pred_mof in
    Ok {| col_epoch := current_epoch;
          col_sample_idx := sample_idx;
          col_num_atoms := num_atoms;
          col_rmsd := rmsd;
          col_match := matched;
          col_valid := prop_valid (properties pred_mof);
          col_true_atom_types := true_atom_types;
          col_pred_atom_types := pred_atom_types;
          col_true_lengths := true_lengths;
          col_pred_lengths := pred_lengths;
          col_true_angles := true_angles;
          col_pred_angles := pred_angles;
          col_true_2d := true_2d;
          col_pred_2d := pred_2d |}.

(** The loop over [range(len(self.pred_mof_list))]: the rows added so far
    are lost when a row raises. *)
Fixpoint table_loop (current_epoch : Z) self (idxs : list nat)
  : result (list Row) :=
  match idxs with
  | [] => Ok []
  | idx :: rest =>
      row <- table_row current_epoch self idx ;;
      rows <- table_loop current_epoch self rest ;;
      Ok (row :: rows)
  end.

(** The table is its list of rows; [save_dir] is not used by the method. *)
Definition get_wandb_table (current_epoch : Z) (save_dir : string) self
  : result (list Row) :=
  table_loop current_epoch self (seq 0 (length (pred_mof_list self))).

End Evaluation.

(** ** A laboratory: concrete collaborators and sample data

    The theorems below hold for every behaviour of the collaborators.  To
    run the module on concrete inputs, this instance supplies a small
    stand-in for each of them. *)

Definition positive_number (v : pyobj) : bool :=
  match v with
  | PyNum q => Qle_bool 0 q && negb (Qeq_bool q 0)
  | PyList _ => false
  end.

(** Six positive numbers and nothing else make a lattice. *)
Definition lab_from_parameters
  (a b c alpha beta gamma : pyobj) (more : list pyobj) : result (list pyobj) :=
  if forallb positive_number [a; b; c; alpha; beta; gamma]
     && (length more =? 0)
  then Ok [a; b; c; alpha; beta; gamma]
  else Raise (LibraryError 1).

#[export] Instance lab_crystallography : Crystallography := {
  Lattice := list pyobj;
  from_parameters := lab_from_parameters
}.

(** As many species as sites. *)
Definition lab_Structure_init
  (lat : list pyobj) (species coords : ndarray) : option exn :=
  if Nat.eqb (hd 0 (shape species)) (hd 0 (shape coords)) then None
  else Some (LibraryError 2).

Fixpoint same_numbers (l m : list Q) : bool :=
  match l, m with
  | [], [] => true
  | p :: l', q :: m' => Qeq_bool p q && same_numbers l' m'
  | _, _ => false
  end.

(** Structures with the same sites are at distance 0; the matcher finds
    nothing otherwise, and refuses structures without sites. *)
Definition lab_get_rms_dist
  (m : StructureMatcher) (pred gt : Structure) : matcher_result :=
  if Nat.eqb (length (data (species pred))) 0 then MRaise (LibraryError 3)
  else if same_numbers (data (species pred)) (data (species gt))
          && same_numbers (data (coords pred)) (data (coords gt))
  then MSeq [Fin 0; Fin 0]
  else MNone.

#[export] Instance lab : Collaborators := {
  Structure_init := lab_Structure_init;
  os_makedirs := fun _ => None;
  struct_to := fun _ _ => None;
  get_rms_dist := lab_get_rms_dist;
  Image := string;
  make_wandb_image := fun _ => Ok "png";
  format_2f := fun q => py_str (py_int q)
}.

(** A cubic cell of edge 5 with one carbon atom at the origin. *)
Definition carbon (idx : Z) : ArrayDict :=
  {| frac_coords := Some (mk_ndarray [1; 3] [0; 0; 0]%Q);
     atom_types := Some (mk_ndarray [1] [6]%Q);
     lengths := Some (mk_ndarray [1; 3] [5; 5; 5]%Q);
     angles := Some (mk_ndarray [1; 3] [90; 90; 90]%Q);
     sample_idx := Some idx |}.

(** The same cell with an oxygen atom. *)
Definition oxygen (idx : Z) : ArrayDict :=
  {| frac_coords := Some (mk_ndarray [1; 3] [0; 0; 0]%Q);
     atom_types := Some (mk_ndarray [1] [8]%Q);
     lengths := Some (mk_ndarray [1; 3] [5; 5; 5]%Q);
     angles := Some (mk_ndarray [1; 3] [90; 90; 90]%Q);
     sample_idx := Some idx |}.

(** [lengths] of wrong arity: two edges instead of three. *)
Definition two_lengths (idx : Z) : ArrayDict :=
  {| frac_coords := Some (mk_ndarray [1; 3] [0; 0; 0]%Q);
     atom_types := Some (mk_ndarray [1] [6]%Q);
     lengths := Some (mk_ndarray [1; 2] [5; 5]%Q);
     angles := Some (mk_ndarray [1; 3] [90; 90; 90]%Q);
     sample_idx := Some idx |}.

(** Two species for one site, all shapes as documented. *)
Definition two_species_one_site (idx : Z) : ArrayDict :=
  {| frac_coords := Some (mk_ndarray [1; 3] [0; 0; 0]%Q);
     atom_types := Some (mk_ndarray [2] [6; 8]%Q);
     lengths := Some (mk_ndarray [1; 3] [5; 5; 5]%Q);
     angles := Some (mk_ndarray [1; 3] [90; 90; 90]%Q);
     sample_idx := Some idx |}.

(** A dict without the key ["lengths"]. *)
Definition no_lengths (idx : Z) : ArrayDict :=
  {| frac_coords := Some (mk_ndarray [1; 3] [0; 0; 0]%Q);
     atom_types := Some (mk_ndarray [1] [6]%Q);
     lengths := None;
     angles := Some (mk_ndarray [1; 3] [90; 90; 90]%Q);
     sample_idx := Some idx |}.

(** An evaluator with the default settings, fed [preds] and [gts] in
    order. *)
Definition fed `{Collaborators} (preds gts : list ArrayDict)
  : MOFReconstructionEvaluator :=
  fold_left append_gt_array gts
    (fold_left append_pred_array preds (__init__ (1 # 2) 10 (3 # 10) "cpu")).

(** What the laboratory builds from [carbon idx] and [oxygen idx], and a
    structure without sites, which its matcher refuses. *)
Definition lab_lattice : Lattice :=
  [PyNum 5; PyNum 5; PyNum 5; PyNum 90; PyNum 90; PyNum 90].

Definition lab_structure (z : Q) (idx : Z) (valid : bool) : Structure :=
  mk_Structure lab_lattice
    (mk_ndarray [1] [z]) (mk_ndarray [1; 3] [0; 0; 0]%Q)
    (mk_Properties idx valid).

Definition lab_no_sites : Structure :=
  mk_Structure lab_lattice
    (mk_ndarray [0] []) (mk_ndarray [0; 3] []) (mk_Properties 0 true).

(** Runs of the laboratory: all pairs matched but the second; no pair
    matched; a scored run whose second pair carries two identifiers. *)
Definition lab_run_one_miss : MOFReconstructionEvaluator :=
  fed [carbon 1; carbon 2; carbon 3] [carbon 1; oxygen 2; carbon 3].

Definition lab_run_all_miss : MOFReconstructionEvaluator :=
  fed [carbon 1; carbon 2] [oxygen 1; oxygen 2].

Definition lab_scored_same_idx : MOFReconstructionEvaluator :=
  fst (get_metrics false "" (fed [carbon 1] [carbon 1])).

Definition lab_scored_other_idx : MOFReconstructionEvaluator :=
  fst (get_metrics false "" (fed [carbon 1; carbon 2] [carbon 1; oxygen 5])).

(** The key whose lookup raises first, in the order in which both blocks of
    [array_dict_to_structure] read the dict. *)
Definition first_missing_key (x : ArrayDict) : option string :=
  match frac_coords x with
  | None => Some "frac_coords"
  | Some _ =>
      match atom_types x with
      | None => Some "atom_types"
      | Some _ =>
          match lengths x with
          | None => Some "lengths"
          | Some _ =>
              match angles x with
              | None => Some "angles"
              | Some _ =>
                  match sample_idx x with
                  | None => Some "sample_idx"
                  | Some _ => None
                  end
              end
          end
      end
  end.

(** A dict that lacks both ["atom_types"] and ["angles"]. *)
Definition no_types_no_angles (idx : Z) : ArrayDict :=
  {| frac_coords := Some (mk_ndarray [1; 3] [0; 0; 0]%Q);
     atom_types := None;
     lengths := Some (mk_ndarray [1; 3] [5; 5; 5]%Q);
     angles := None;
     sample_idx := Some idx |}.

(** A stream of appends, predictions ([inl]) and ground truths ([inr]) in
    any interleaving, and the bundles of each kind it carries, in order. *)
Definition append_array `{Collaborators} self (b : ArrayDict + ArrayDict)
  : MOFReconstructionEvaluator :=
  match b with
  | inl pred => append_pred_array self pred
  | inr gt => append_gt_array self gt
  end.

Fixpoint preds_of (stream : list (ArrayDict + ArrayDict)) : list ArrayDict :=
  match stream with
  | [] => []
  | inl pred :: stream' => pred :: preds_of stream'
  | inr _ :: stream' => preds_of stream'
  end.

Fixpoint gts_of (stream : list (ArrayDict + ArrayDict)) : list ArrayDict :=
  match stream with
  | [] => []
  | inl _ :: stream' => gts_of stream'
  | inr gt :: stream' => gt :: gts_of stream'
  end.

(** Bundles the report table can render: [atom_types] has one axis, and
    [lengths] and [angles] have one axis once squeezed. *)
Definition one_axis (a : ndarray) : bool :=
  match shape a with
  | [_] => true
  | _ => false
  end.

Definition renders_as_text (x : ArrayDict) : bool :=
  match atom_types x, lengths x, angles x with
  | Some ty, Some l, Some a =>
      one_axis ty && one_axis (squeeze l) && one_axis (squeeze a)
  | _, _, _ => false
  end.

(** The laboratory's first run once scored, with the metrics it returns,
    and a run whose only ground truth has two lengths. *)
Definition lab_scored_one_miss : MOFReconstructionEvaluator :=
  fst (get_metrics false "" lab_run_one_miss).

Definition lab_metrics_one_miss : Metrics :=
  {| match_rate := [1%Z; 0%Z; 1%Z]; rms_dist := [Fin 0; Fin 0] |}.

Definition lab_run_bad_gt : MOFReconstructionEvaluator :=
  fed [carbon 1] [two_lengths 1].

(** * Properties *)

Section Properties.

Context `{Collaborators}.

(** ** The structure builder *)

Lemma length_concat_repeat {A : Type} (l : list A) (n : nat) :
  length (concat (repeat l n)) = n * length l.
Proof.
  induction n as [|n IH]; simpl.
  - reflexivity.
  - rewrite length_app, IH. reflexivity.
Qed.

(** Fewer than six or more than eight positional arguments never reach
    pymatgen. *)
Lemma call_from_parameters_arity (args : list pyobj) :
  length args < 6 \/ 8 < length args ->
  call_from_parameters args = Raise TypeError.
Proof.
  intros Hlen. unfold call_from_parameters.
  do 6 (destruct args as [|? args]; [reflexivity|]).
  destruct (length args <=? 2) eqn:Hmore; [|reflexivity].
  apply Nat.leb_le in Hmore. simpl in Hlen. lia.
Qed.

(** The lattice expression of the handler raises whatever [tolist]
    returned: a number cannot be unpacked, and a list repeated 100 (or 90)
    times has no length between six and eight. *)
Lemma handler_lattice_raises (v w : pyobj) :
  lattice_from (py_mul 100 v) (py_mul 90 w) = Raise TypeError.
Proof.
  unfold lattice_from.
  destruct v as [p|l], w as [q|m]; try reflexivity.
  cbn [py_mul py_add bind star].
  apply call_from_parameters_arity.
  rewrite length_app, !length_concat_repeat.
  destruct l, m; simpl; lia.
Qed.

(** The handler of [array_dict_to_structure] never returns. *)
Lemma except_block_raises (x : ArrayDict) :
  exists e, except_block x = Raise e.
Proof.
  unfold except_block.
  destruct (frac_coords x); [|eexists; reflexivity].
  destruct (atom_types x); [|eexists; reflexivity].
  destruct (lengths x); [|eexists; reflexivity].
  destruct (angles x); [|eexists; reflexivity].
  destruct (sample_idx x); [|eexists; reflexivity].
  cbn [getitem bind]. rewrite handler_lattice_raises.
  eexists; reflexivity.
Qed.

(** With the five keys present the handler raises [TypeError]. *)
Lemma except_block_type_error (x : ArrayDict) :
  has_keys x = true -> except_block x = Raise TypeError.
Proof.
  unfold has_keys, except_block.
  destruct (frac_coords x); [|discriminate].
  destruct (atom_types x); [|discriminate].
  destruct (lengths x); [|discriminate].
  destruct (angles x); [|discriminate].
  destruct (sample_idx x); [|discriminate].
  intros _. cbn [getitem bind]. rewrite handler_lattice_raises. reflexivity.
Qed.

(** A missing key is reported by both blocks. *)
Lemma try_block_missing_key (x : ArrayDict) save dir :
  has_keys x = false -> exists k, try_block x save dir = Raise (KeyError k).
Proof.
  unfold has_keys, try_block.
  destruct (frac_coords x); [|eexists; reflexivity].
  destruct (atom_types x); [|eexists; reflexivity].
  destruct (lengths x); [|eexists; reflexivity].
  destruct (angles x); [|eexists; reflexivity].
  destruct (sample_idx x); [discriminate|eexists; reflexivity].
Qed.

Lemma except_block_missing_key (x : ArrayDict) :
  has_keys x = false -> exists k, except_block x = Raise (KeyError k).
Proof.
  unfold has_keys, except_block.
  destruct (frac_coords x); [|eexists; reflexivity].
  destruct (atom_types x); [|eexists; reflexivity].
  destruct (lengths x); [|eexists; reflexivity].
  destruct (angles x); [|eexists; reflexivity].
  destruct (sample_idx x); [discriminate|eexists; reflexivity].
Qed.

(** Whatever [array_dict_to_structure] returns was built by the body of
    [try]: it is flagged valid. *)
Lemma array_dict_to_structure_returns_try (x : ArrayDict) save dir struct :
  array_dict_to_structure x save dir = Ok struct ->
  try_block x save dir = Ok struct.
Proof.
  unfold array_dict_to_structure.
  destruct (try_block x save dir) as [s|e]; [trivial|].
  destruct (except_block_raises x) as [e' He']. rewrite He'. discriminate.
Qed.

(** When the body of [try] raises, so does the function. *)
Lemma array_dict_to_structure_raises (x : ArrayDict) save dir e :
  try_block x save dir = Raise e ->
  exists e', array_dict_to_structure x save dir = Raise e'.
Proof.
  intros Htry. unfold array_dict_to_structure. rewrite Htry.
  apply except_block_raises.
Qed.

(** The bundle with two lengths: five arguments reach
    [Lattice.from_parameters] in the body of [try], 470 in the handler. *)
Lemma two_lengths_raises (idx : Z) save dir :
  array_dict_to_structure (two_lengths idx) save dir = Raise TypeError.
Proof.
  unfold array_dict_to_structure.
  assert (Htry : try_block (two_lengths idx) save dir = Raise TypeError)
    by reflexivity.
  rewrite Htry. apply except_block_type_error. reflexivity.
Qed.

(** ** Lists and the conversion *)

Lemma joblib_map_length {A B : Type} (f : A -> result B) (l : list A) :
  forall bs, joblib_map f l = Ok bs -> length bs = length l.
Proof.
  induction l as [|a l IH]; simpl; intros bs Hmap.
  - injection Hmap as <-. reflexivity.
  - destruct (f a) as [b|e]; [|discriminate].
    destruct (joblib_map f l) as [bs'|e]; [|discriminate].
    simpl in Hmap. injection Hmap as <-. simpl. f_equal. apply IH. reflexivity.
Qed.

Lemma nth_error_combine {A B : Type} (l : list A) (m : list B) (k : nat) :
  nth_error (combine l m) k =
  match nth_error l k, nth_error m k with
  | Some a, Some b => Some (a, b)
  | _, _ => None
  end.
Proof.
  revert m k. induction l as [|a l IH]; intros [|b m] [|k]; simpl;
    try reflexivity.
  - destruct (nth_error l k); reflexivity.
  - apply IH.
Qed.

Lemma skipn_nth_error {A : Type} (l : list A) (k : nat) (a : A) :
  nth_error l k = Some a -> skipn k l = a :: skipn (S k) l.
Proof.
  revert k. induction l as [|b l IH]; intros [|k] Hk; simpl in *;
    try discriminate.
  - injection Hk as ->. reflexivity.
  - apply IH. exact Hk.
Qed.

Lemma nth_error_in_range {A : Type} (l : list A) (k : nat) :
  k < length l -> exists a, nth_error l k = Some a.
Proof.
  intros Hk. destruct (nth_error l k) as [a|] eqn:Hnth.
  - exists a. reflexivity.
  - apply nth_error_None in Hnth. lia.
Qed.

(** ** The scoring loop *)

(** Ltac for the record of the evaluator: split it into its attributes. *)
Ltac open_self self :=
  destruct self as [?matcher ?pred_arrays ?gt_arrays ?pred_mofs ?gt_mofs
                    ?device ?rms].

(** From index [k] on, the loop appends the distances of the pairs [k],
    [k+1], ... to [self.rms_dists] and never raises. *)
Lemma rms_loop_appends (n : nat) :
  forall (k : nat) self (acc : list pyfloat),
    rms_dists self = Some acc ->
    length (pred_mof_list self) = length (gt_mof_list self) ->
    k + n <= length (pred_mof_list self) ->
    let pairs := combine (pred_mof_list self) (gt_mof_list self) in
    let validity :=
      map (fun c => prop_valid (properties (fst c))
                    && prop_valid (properties (snd c))) pairs in
    rms_loop self validity (seq k n) =
    (set_rms_dists self
       (Some (acc ++ map (pair_distance self) (firstn n (skipn k pairs)))),
     Ok tt).
Proof.
  induction n as [|n IH]; intros k self acc Hacc Hlen Hk pairs validity.
  - simpl. rewrite app_nil_r. open_self self. simpl in Hacc. subst rms.
    reflexivity.
  - destruct (nth_error_in_range (pred_mof_list self) k) as [p Hp]; [lia|].
    destruct (nth_error_in_range (gt_mof_list self) k) as [g Hg]; [lia|].
    assert (Hc : nth_error pairs k = Some (p, g)).
    { unfold pairs. rewrite nth_error_combine, Hp, Hg. reflexivity. }
    assert (Hv : nth_error validity k =
                 Some (prop_valid (properties p) && prop_valid (properties g))).
    { unfold validity. rewrite nth_error_map, Hc. reflexivity. }
    cbn [seq rms_loop]. unfold index. rewrite Hp, Hg, Hv.
    set (d := fst (_get_metrics self p g
                     (prop_valid (properties p) && prop_valid (properties g)))).
    specialize (IH (S k)
                  (set_rms_dists self (Some (rms_dists_list self ++ [d])))
                  (acc ++ [d])).
    cbn [set_rms_dists pred_mof_list gt_mof_list rms_dists] in IH.
    fold pairs in IH. fold validity in IH.
    rewrite IH; [| unfold rms_dists_list; rewrite Hacc; reflexivity
                 | exact Hlen | lia].
    rewrite (skipn_nth_error pairs k (p, g) Hc). cbn [firstn map].
    rewrite <- app_assoc. reflexivity.
Qed.

(** ** [get_metrics] *)

(** What [get_metrics] does once both conversions have returned: it scores
    every pair and aggregates. *)
Lemma get_metrics_scored save save_dir self (preds gts : list Structure) :
  length (pred_arrays_list self) = length (gt_arrays_list self) ->
  convert save (String.append save_dir "/pred") (pred_arrays_list self)
  = Ok preds ->
  convert save (String.append save_dir "/gt") (gt_arrays_list self)
  = Ok gts ->
  let t := map (pair_distance self) (combine preds gts) in
  get_metrics save save_dir self =
  (set_rms_dists (set_gt_mof_list (set_pred_mof_list self preds) gts) (Some t),
   Ok (if length (select_not_isinf t) =? 0
       then {| match_rate := not_isinf_long t;
               rms_dist := repeat (Fin 10) (length (not_isinf_long t)) |}
       else {| match_rate := not_isinf_long t;
               rms_dist := select_not_isinf t |})).
Proof.
  intros Hlen Hpreds Hgts t.
  assert (Hmofs : length preds = length gts).
  { apply joblib_map_length in Hpreds, Hgts. lia. }
  subst t. open_self self.
  cbn [pred_arrays_list gt_arrays_list] in Hlen, Hpreds, Hgts.
  unfold get_metrics, _arrays_to_structures.
  cbn [pred_arrays_list gt_arrays_list].
  rewrite Hlen, Nat.eqb_refl. cbn [negb].
  rewrite Hpreds.
  unfold set_pred_mof_list. cbn [gt_arrays_list].
  rewrite Hgts.
  unfold set_gt_mof_list, set_rms_dists.
  cbn [pred_mof_list gt_mof_list matcher pred_arrays_list gt_arrays_list
       device rms_dists].
  match goal with
  | |- context [rms_loop ?s ?v (seq 0 ?n)] =>
      pose proof (rms_loop_appends n 0 s [] eq_refl) as Hloop
  end.
  unfold set_rms_dists in Hloop.
  cbn [pred_mof_list gt_mof_list matcher pred_arrays_list gt_arrays_list
       device rms_dists] in Hloop.
  rewrite (Hloop Hmofs (Nat.le_refl _)). clear Hloop.
  cbn [skipn app].
  replace (firstn (length preds) (combine preds gts)) with (combine preds gts).
  2:{ symmetry. apply firstn_all2. rewrite length_combine. lia. }
  cbn [set_rms_dists rms_dists_list rms_dists matcher pred_arrays_list
       gt_arrays_list pred_mof_list gt_mof_list device].
  unfold pair_distance, _get_metrics. cbn [matcher].
  match goal with
  | |- context [length (select_not_isinf ?t) =? 0] =>
      destruct (length (select_not_isinf t) =? 0); reflexivity
  end.
Qed.

(** An exception of the conversion leaves [get_metrics] as it is. *)
Lemma get_metrics_conversion_raises save save_dir self e :
  length (pred_arrays_list self) = length (gt_arrays_list self) ->
  snd (_arrays_to_structures save save_dir self) = Raise e ->
  snd (get_metrics save save_dir self) = Raise e.
Proof.
  intros Hlen Hconv. unfold get_metrics.
  rewrite Hlen, Nat.eqb_refl. cbn [negb].
  destruct (_arrays_to_structures save save_dir self) as [self' [u|e']];
    simpl in Hconv; [discriminate|].
  injection Hconv as ->. reflexivity.
Qed.

Lemma not_isinf_long_length (t : list pyfloat) :
  length (not_isinf_long t) = length t.
Proof. apply length_map. Qed.

Lemma select_not_isinf_length (t : list pyfloat) :
  length (select_not_isinf t) = count_finite t.
Proof.
  induction t as [|d t IH]; simpl; [reflexivity|].
  unfold finite. destruct (isinf d); simpl; rewrite IH; reflexivity.
Qed.

Lemma all_infinite (t : list pyfloat) :
  Forall (fun d => isinf d = true) t ->
  select_not_isinf t = [] /\ not_isinf_long t = repeat 0%Z (length t).
Proof.
  induction 1 as [|d t Hd _ [IHs IHm]]; simpl; [split; reflexivity|].
  rewrite Hd. simpl. rewrite IHs, IHm. split; reflexivity.
Qed.

(** The scoring loop leaves the inputs of [get_metrics] alone. *)
Lemma rms_loop_frame (idxs : list nat) :
  forall self validity,
    let self' := fst (rms_loop self validity idxs) in
    matcher self' = matcher self
    /\ pred_arrays_list self' = pred_arrays_list self
    /\ gt_arrays_list self' = gt_arrays_list self.
Proof.
  induction idxs as [|i idxs IH]; intros self validity; cbn [rms_loop].
  - repeat split.
  - destruct (index (pred_mof_list self) i); [|repeat split].
    destruct (index (gt_mof_list self) i); [|repeat split].
    destruct (index validity i); [|repeat split].
    match goal with
    | |- context [rms_loop ?s validity idxs] => specialize (IH s validity)
    end.
    exact IH.
Qed.

Lemma get_metrics_frame save save_dir self :
  let self' := fst (get_metrics save save_dir self) in
  matcher self' = matcher self
  /\ pred_arrays_list self' = pred_arrays_list self
  /\ gt_arrays_list self' = gt_arrays_list self.
Proof.
  unfold get_metrics.
  destruct (negb (length (pred_arrays_list self)
                  =? length (gt_arrays_list self))); [repeat split|].
  unfold _arrays_to_structures.
  destruct (convert save _ (pred_arrays_list self)) as [preds|e];
    [|repeat split].
  cbn [set_pred_mof_list gt_arrays_list].
  destruct (convert save _ (gt_arrays_list self)) as [gts|e];
    [|repeat split].
  match goal with
  | |- context [rms_loop ?s ?v ?l] =>
      pose proof (rms_loop_frame l s v) as Hframe;
      destruct (rms_loop s v l) as [self2 [u|e]]
  end.
  - destruct (length (select_not_isinf (rms_dists_list self2)) =? 0);
      exact Hframe.
  - exact Hframe.
Qed.

(** The result of [get_metrics] is a function of the matcher and of the
    two lists of bundles. *)
Lemma get_metrics_reads save save_dir self1 self2 :
  matcher self1 = matcher self2 ->
  pred_arrays_list self1 = pred_arrays_list self2 ->
  gt_arrays_list self1 = gt_arrays_list self2 ->
  snd (get_metrics save save_dir self1) = snd (get_metrics save save_dir self2).
Proof.
  intros Hm Hp Hg.
  destruct (Nat.eq_dec (length (pred_arrays_list self1))
                       (length (gt_arrays_list self1))) as [Hlen|Hlen].
  - assert (Hlen2 : length (pred_arrays_list self2)
                    = length (gt_arrays_list self2))
      by (rewrite <- Hp, <- Hg; exact Hlen).
    destruct (convert save (String.append save_dir "/pred")
                (pred_arrays_list self1)) as [preds|e] eqn:Hpreds.
    + destruct (convert save (String.append save_dir "/gt")
                  (gt_arrays_list self1)) as [gts|e] eqn:Hgts.
      * rewrite (get_metrics_scored save save_dir self1 preds gts Hlen
                   Hpreds Hgts).
        rewrite Hp in Hpreds. rewrite Hg in Hgts.
        rewrite (get_metrics_scored save save_dir self2 preds gts Hlen2
                   Hpreds Hgts).
        unfold pair_distance, _get_metrics. rewrite Hm. reflexivity.
      * rewrite (get_metrics_conversion_raises save save_dir self1 e Hlen).
        2:{ unfold _arrays_to_structures. rewrite Hpreds.
            cbn [set_pred_mof_list gt_arrays_list]. rewrite Hgts.
            reflexivity. }
        rewrite Hp in Hpreds. rewrite Hg in Hgts.
        rewrite (get_metrics_conversion_raises save save_dir self2 e Hlen2).
        2:{ unfold _arrays_to_structures. rewrite Hpreds.
            cbn [set_pred_mof_list gt_arrays_list]. rewrite Hgts.
            reflexivity. }
        reflexivity.
    + rewrite (get_metrics_conversion_raises save save_dir self1 e Hlen).
      2:{ unfold _arrays_to_structures. rewrite Hpreds. reflexivity. }
      rewrite Hp in Hpreds.
      rewrite (get_metrics_conversion_raises save save_dir self2 e Hlen2).
      2:{ unfold _arrays_to_structures. rewrite Hpreds. reflexivity. }
      reflexivity.
  - unfold get_metrics. rewrite <- Hp, <- Hg.
    apply Nat.eqb_neq in Hlen. rewrite Hlen. reflexivity.
Qed.

(** ** The report table *)

(** A row whose two structures carry different identifiers stops at the
    assertion of line 168. *)
Lemma table_row_mismatch (current_epoch : Z) self (idx : nat)
  (pred_mof gt_mof : Structure) :
  nth_error (pred_mof_list self) idx = Some pred_mof ->
  nth_error (gt_mof_list self) idx = Some gt_mof ->
  prop_sample_idx (properties gt_mof)
  <> prop_sample_idx (properties pred_mof) ->
  table_row current_epoch self idx = Raise AssertionError.
Proof.
  intros Hp Hg Hne. unfold table_row, index. rewrite Hg, Hp.
  cbn [bind]. apply Z.eqb_neq in Hne. rewrite Hne. reflexivity.
Qed.

(** A row that is produced has passed the assertion. *)
Lemma table_row_same_sample (current_epoch : Z) self (idx : nat) (row : Row)
  (pred_mof gt_mof : Structure) :
  table_row current_epoch self idx = Ok row ->
  nth_error (pred_mof_list self) idx = Some pred_mof ->
  nth_error (gt_mof_list self) idx = Some gt_mof ->
  prop_sample_idx (properties gt_mof) = prop_sample_idx (properties pred_mof).
Proof.
  intros Hrow Hp Hg.
  destruct (Z.eq_dec (prop_sample_idx (properties gt_mof))
                     (prop_sample_idx (properties pred_mof))) as [Heq|Hne].
  - exact Heq.
  - rewrite (table_row_mismatch current_epoch self idx pred_mof gt_mof
               Hp Hg Hne) in Hrow.
    discriminate.
Qed.

Lemma table_loop_rows (current_epoch : Z) self (idxs : list nat) :
  forall rows,
    table_loop current_epoch self idxs = Ok rows ->
    forall idx, In idx idxs ->
      exists row, table_row current_epoch self idx = Ok row.
Proof.
  induction idxs as [|i idxs IH]; intros rows Hloop idx Hin.
  - destruct Hin.
  - cbn [table_loop] in Hloop.
    destruct (table_row current_epoch self i) as [row|e] eqn:Hrow;
      [|discriminate].
    cbn [bind] in Hloop.
    destruct (table_loop current_epoch self idxs) as [rows'|e];
      [|discriminate].
    destruct Hin as [<-|Hin].
    + exists row. exact Hrow.
    + apply (IH rows' eq_refl idx Hin).
Qed.

(** The loop raises what its first failing row raises. *)
Lemma table_loop_first_failure (current_epoch : Z) self
  (before : list nat) (idx : nat) (rest : list nat) (e : exn) :
  (forall j, In j before -> exists row, table_row current_epoch self j = Ok row) ->
  table_row current_epoch self idx = Raise e ->
  table_loop current_epoch self (before ++ idx :: rest) = Raise e.
Proof.
  induction before as [|j before IH]; intros Hbefore Hrow.
  - cbn [app table_loop]. rewrite Hrow. reflexivity.
  - cbn [app table_loop].
    destruct (Hbefore j (or_introl eq_refl)) as [row Hj]. rewrite Hj.
    cbn [bind]. rewrite IH; [reflexivity| |exact Hrow].
    intros k Hk. apply Hbefore. right. exact Hk.
Qed.

Lemma seq_split_at (n idx : nat) :
  idx < n -> seq 0 n = seq 0 idx ++ idx :: seq (S idx) (n - S idx).
Proof.
  intros Hidx. replace n with (idx + S (n - S idx)) at 1 by lia.
  rewrite seq_app. reflexivity.
Qed.

(** * The claims *)

(** C1, as amended.  [array_dict_to_structure] returns the structure built
    from the bundle, flagged valid and carrying the bundle's [sample_idx],
    whenever the bundle holds the five keys and the lattice, the structure
    and (if asked for) the export succeed; a bundle that lacks one of the
    keys is not absorbed: [KeyError] is raised.  Nothing is said here about
    a construction that fails with all keys present. *)
Theorem builder_returns_built_structure_or_key_error
  (x : ArrayDict) (save : bool) (save_dir_name : string) :
  (forall fc ty l a idx lat,
      x = mk_ArrayDict (Some fc) (Some ty) (Some l) (Some a) (Some idx) ->
      lattice_from (tolist (squeeze l)) (tolist (squeeze a)) = Ok lat ->
      Structure_init lat ty fc = None ->
      (save = true ->
       os_makedirs save_dir_name = None
       /\ struct_to (mk_Structure lat ty fc (mk_Properties idx true))
            (cif_path save_dir_name idx) = None) ->
      array_dict_to_structure x save save_dir_name
      = Ok (mk_Structure lat ty fc (mk_Properties idx true)))
  /\ (has_keys x = false ->
      exists key,
        array_dict_to_structure x save save_dir_name = Raise (KeyError key)).
Proof.
  split.
  - intros fc ty l a idx lat -> Hlat Hinit Hsave.
    unfold array_dict_to_structure, try_block.
    cbn [frac_coords atom_types lengths angles sample_idx getitem bind].
    rewrite Hlat. cbn [bind]. rewrite Hinit. cbn [run bind].
    destruct save; [|reflexivity].
    destruct (Hsave eq_refl) as [Hdir Hto]. rewrite Hdir. cbn [run bind].
    rewrite Hto. reflexivity.
  - intros Hkeys. unfold array_dict_to_structure.
    destruct (try_block_missing_key x save save_dir_name Hkeys) as [k Hk].
    rewrite Hk. apply except_block_missing_key. exact Hkeys.
Qed.

(** C2, the code at a failing input.  For a bundle whose [lengths] has two
    entries the construction fails in the body of [try] (five arguments
    reach [Lattice.from_parameters]); the handler then fails as well (470
    arguments), and the function raises [TypeError] instead of returning
    the sentinel structure. *)
Theorem builder_raises_on_wrong_arity_lengths
  (idx : Z) (save : bool) (save_dir_name : string) :
  try_block (two_lengths idx) save save_dir_name = Raise TypeError
  /\ except_block (two_lengths idx) = Raise TypeError
  /\ array_dict_to_structure (two_lengths idx) save save_dir_name
     = Raise TypeError.
Proof.
  split; [reflexivity|split].
  - apply except_block_type_error. reflexivity.
  - apply two_lengths_raises.
Qed.

(** C3.  When the two lists of bundles differ in length, [get_metrics]
    raises [AssertionError] and the evaluator is left exactly as it was:
    nothing has been converted or computed. *)
Theorem get_metrics_length_mismatch_asserts
  (save : bool) (save_dir : string) self :
  length (pred_arrays_list self) <> length (gt_arrays_list self) ->
  get_metrics save save_dir self = (self, Raise AssertionError).
Proof.
  intros Hlen. unfold get_metrics.
  apply Nat.eqb_neq in Hlen. rewrite Hlen. reflexivity.
Qed.

(** C4, the code at a failing input.  With one prediction whose [lengths]
    has two entries and one well-formed ground truth, [get_metrics] raises
    [TypeError]: no [match_rate] is returned. *)
Theorem get_metrics_raises_on_malformed_bundle
  (save : bool) (save_dir : string) (idx : Z) :
  snd (get_metrics save save_dir (fed [two_lengths idx] [carbon idx]))
  = Raise TypeError.
Proof.
  apply get_metrics_conversion_raises; [reflexivity|].
  unfold _arrays_to_structures, convert, fed.
  cbn [fold_left append_pred_array append_gt_array __init__
       set_pred_arrays_list
       set_gt_arrays_list pred_arrays_list gt_arrays_list app joblib_map].
  rewrite two_lengths_raises. reflexivity.
Qed.

(** C5.  For an invalid pair [_get_metrics] returns +infinity without
    calling the matcher; for a valid pair it returns +infinity when the
    matcher raises or returns [None], and the first component of the
    matcher's result otherwise.  Nothing of this propagates: once both
    conversions have returned, [get_metrics] returns, having stored the
    distance of every pair. *)
Theorem pair_failures_are_absorbed self (pred gt : Structure) :
  _get_metrics self pred gt false = (PosInf, [])
  /\ (forall e,
        get_rms_dist (matcher self) pred gt = MRaise e ->
        _get_metrics self pred gt true = (PosInf, [(pred, gt)]))
  /\ (get_rms_dist (matcher self) pred gt = MNone ->
      _get_metrics self pred gt true = (PosInf, [(pred, gt)]))
  /\ (forall d rest,
        get_rms_dist (matcher self) pred gt = MSeq (d :: rest) ->
        _get_metrics self pred gt true = (d, [(pred, gt)]))
  /\ (forall save save_dir preds gts,
        length (pred_arrays_list self) = length (gt_arrays_list self) ->
        convert save (String.append save_dir "/pred") (pred_arrays_list self)
        = Ok preds ->
        convert save (String.append save_dir "/gt") (gt_arrays_list self)
        = Ok gts ->
        exists self' metrics,
          get_metrics save save_dir self = (self', Ok metrics)
          /\ rms_dists self'
             = Some (map (pair_distance self) (combine preds gts))).
Proof.
  repeat split.
  - intros e He. unfold _get_metrics. cbn [negb]. rewrite He. reflexivity.
  - intros Hnone. unfold _get_metrics. cbn [negb]. rewrite Hnone.
    reflexivity.
  - intros d rest Hseq. unfold _get_metrics. cbn [negb]. rewrite Hseq.
    reflexivity.
  - intros save save_dir preds gts Hlen Hpreds Hgts.
    rewrite (get_metrics_scored save save_dir self preds gts Hlen Hpreds Hgts).
    eexists. eexists. split; reflexivity.
Qed.

(** C6, the code at a failing input.  With two predictions whose [lengths]
    have two entries, no pair is valid, and [get_metrics] raises
    [TypeError] where the claim has it return [rms_dist = [10.0, 10.0]]. *)
Theorem get_metrics_raises_when_no_pair_is_valid
  (save : bool) (save_dir : string) :
  snd (get_metrics save save_dir
         (fed [two_lengths 1; two_lengths 2] [carbon 1; carbon 2]))
  = Raise TypeError.
Proof.
  apply get_metrics_conversion_raises; [reflexivity|].
  unfold _arrays_to_structures, convert, fed.
  cbn [fold_left append_pred_array append_gt_array __init__
       set_pred_arrays_list
       set_gt_arrays_list pred_arrays_list gt_arrays_list app joblib_map].
  rewrite two_lengths_raises. reflexivity.
Qed.

(** In a run of N pairs whose bundles all convert and whose
    distances are all infinite, [get_metrics] returns an [rms_dist] of
    length N whose every element is 10.0 (and a [match_rate] of N
    zeros). *)
Theorem no_finite_distance_gives_sentinel_rms
  (save : bool) (save_dir : string) self (preds gts : list Structure)
  (N : nat) :
  length (pred_arrays_list self) = N ->
  length (gt_arrays_list self) = N ->
  convert save (String.append save_dir "/pred") (pred_arrays_list self)
  = Ok preds ->
  convert save (String.append save_dir "/gt") (gt_arrays_list self)
  = Ok gts ->
  Forall (fun d => isinf d = true)
    (map (pair_distance self) (combine preds gts)) ->
  snd (get_metrics save save_dir self)
  = Ok {| match_rate := repeat 0%Z N; rms_dist := repeat (Fin 10) N |}
  /\ length (repeat (Fin 10) N) = N.
Proof.
  intros Hp Hg Hpreds Hgts Hinf.
  assert (Hlen : length (pred_arrays_list self) = length (gt_arrays_list self))
    by lia.
  rewrite (get_metrics_scored save save_dir self preds gts Hlen Hpreds Hgts).
  cbn [snd].
  assert (HN : length (map (pair_distance self) (combine preds gts)) = N).
  { rewrite length_map, length_combine.
    apply joblib_map_length in Hpreds, Hgts. lia. }
  destruct (all_infinite _ Hinf) as [Hsel Hrate].
  rewrite Hsel. cbn [length Nat.eqb].
  rewrite not_isinf_long_length, Hrate, HN.
  split; [reflexivity|apply repeat_length].
Qed.

(** C7, the code at a failing input.  Of three pairs the first and the
    third are well formed and the prediction of the second has two
    [lengths]: two pairs out of three would have a finite distance, but
    [get_metrics] raises [TypeError] during the conversion, whatever the
    collaborators do, and returns no [rms_dist]. *)
Theorem get_metrics_raises_with_one_invalid_pair_among_three
  (save : bool) (save_dir : string) :
  snd (get_metrics save save_dir
         (fed [carbon 1; two_lengths 2; carbon 3]
              [carbon 1; carbon 2; carbon 3]))
  = Raise TypeError.
Proof.
  apply get_metrics_conversion_raises; [reflexivity|].
  unfold _arrays_to_structures, convert, fed.
  cbn [fold_left append_pred_array append_gt_array __init__
       set_pred_arrays_list
       set_gt_arrays_list pred_arrays_list gt_arrays_list app joblib_map].
  rewrite two_lengths_raises.
  unfold array_dict_to_structure at 1.
  destruct (try_block (carbon 1) save (String.append save_dir "/pred"))
    as [struct|e].
  - reflexivity.
  - rewrite (except_block_type_error (carbon 1) eq_refl). reflexivity.
Qed.

(** In a run of N pairs whose bundles all convert and of which M >= 1 have
    a finite distance, [get_metrics] returns as [rms_dist] the finite
    distances alone, in the order of their pairs: M values. *)
Theorem finite_distances_kept_in_order
  (save : bool) (save_dir : string) self (preds gts : list Structure)
  (N M : nat) :
  length (pred_arrays_list self) = N ->
  length (gt_arrays_list self) = N ->
  convert save (String.append save_dir "/pred") (pred_arrays_list self)
  = Ok preds ->
  convert save (String.append save_dir "/gt") (gt_arrays_list self)
  = Ok gts ->
  let t := map (pair_distance self) (combine preds gts) in
  count_finite t = M ->
  1 <= M ->
  exists metrics,
    snd (get_metrics save save_dir self) = Ok metrics
    /\ length t = N
    /\ rms_dist metrics = filter finite t
    /\ length (rms_dist metrics) = M
    /\ Forall (fun d => finite d = true) (rms_dist metrics).
Proof.
  intros Hp Hg Hpreds Hgts t Hcount HM.
  assert (Hlen : length (pred_arrays_list self) = length (gt_arrays_list self))
    by lia.
  rewrite (get_metrics_scored save save_dir self preds gts Hlen Hpreds Hgts).
  cbn [snd]. fold t.
  assert (Hsel : length (select_not_isinf t) = M)
    by (rewrite select_not_isinf_length; exact Hcount).
  destruct (length (select_not_isinf t) =? 0) eqn:Hzero.
  { apply Nat.eqb_eq in Hzero. lia. }
  eexists. split; [reflexivity|]. cbn [rms_dist].
  repeat split.
  - unfold t. rewrite length_map, length_combine.
    apply joblib_map_length in Hpreds, Hgts. lia.
  - exact Hsel.
  - apply Forall_forall. intros d Hd.
    apply filter_In in Hd. exact (proj2 Hd).
Qed.

(** C8.  After [clear], [get_metrics] returns: both [match_rate] and
    [rms_dist] are empty. *)
Theorem clear_then_get_metrics_is_empty
  (save : bool) (save_dir : string) self :
  snd (get_metrics save save_dir (clear self))
  = Ok {| match_rate := []; rms_dist := [] |}.
Proof.
  rewrite (get_metrics_scored save save_dir (clear self) [] []);
    reflexivity.
Qed.

(** C9.  A second call of [get_metrics], made on the evaluator as the first
    call left it and with the same arguments, gives the result of the
    first. *)
Theorem get_metrics_twice_same_result
  (save : bool) (save_dir : string) self :
  snd (get_metrics save save_dir (fst (get_metrics save save_dir self)))
  = snd (get_metrics save save_dir self).
Proof.
  destruct (get_metrics_frame save save_dir self) as (Hm & Hp & Hg).
  apply get_metrics_reads; assumption.
Qed.

(** C10.  [get_wandb_table] produces its rows only if, at every position,
    the ground-truth structure and the prediction structure carry the same
    [sample_idx]; a row where they differ raises [AssertionError], and so
    does the whole call when the rows before it were produced. *)
Theorem table_requires_matching_sample_idx
  (current_epoch : Z) (save_dir : string) self :
  (forall rows,
      get_wandb_table current_epoch save_dir self = Ok rows ->
      forall idx pred_mof gt_mof,
        nth_error (pred_mof_list self) idx = Some pred_mof ->
        nth_error (gt_mof_list self) idx = Some gt_mof ->
        prop_sample_idx (properties gt_mof)
        = prop_sample_idx (properties pred_mof))
  /\ (forall idx pred_mof gt_mof,
        nth_error (pred_mof_list self) idx = Some pred_mof ->
        nth_error (gt_mof_list self) idx = Some gt_mof ->
        prop_sample_idx (properties gt_mof)
        <> prop_sample_idx (properties pred_mof) ->
        table_row current_epoch self idx = Raise AssertionError
        /\ ((forall j, j < idx ->
               exists row, table_row current_epoch self j = Ok row) ->
            get_wandb_table current_epoch save_dir self
            = Raise AssertionError)).
Proof.
  split.
  - intros rows Htable idx pred_mof gt_mof Hp Hg.
    assert (Hidx : idx < length (pred_mof_list self)).
    { apply nth_error_Some. rewrite Hp. discriminate. }
    destruct (table_loop_rows current_epoch self _ rows Htable idx)
      as [row Hrow].
    { apply in_seq. lia. }
    exact (table_row_same_sample current_epoch self idx row pred_mof gt_mof
             Hrow Hp Hg).
  - intros idx pred_mof gt_mof Hp Hg Hne.
    pose proof (table_row_mismatch current_epoch self idx pred_mof gt_mof
                  Hp Hg Hne) as Hrow.
    split; [exact Hrow|].
    intros Hbefore. unfold get_wandb_table.
    assert (Hidx : idx < length (pred_mof_list self)).
    { apply nth_error_Some. rewrite Hp. discriminate. }
    rewrite (seq_split_at _ idx Hidx).
    apply table_loop_first_failure; [|exact Hrow].
    intros j Hj. apply Hbefore. apply in_seq in Hj. lia.
Qed.

(** A structure that [array_dict_to_structure] returns carries the
    [sample_idx] of its bundle. *)
Theorem returned_structure_keeps_sample_idx
  (x : ArrayDict) (save : bool) (save_dir_name : string) (struct : Structure) :
  array_dict_to_structure x save save_dir_name = Ok struct ->
  sample_idx x = Some (prop_sample_idx (properties struct)).
Proof.
  intros Hret. apply array_dict_to_structure_returns_try in Hret.
  unfold try_block in Hret.
  destruct (frac_coords x); [|discriminate].
  destruct (atom_types x); [|discriminate].
  destruct (lengths x); [|discriminate].
  destruct (angles x); [|discriminate].
  destruct (sample_idx x) as [idx|]; [|discriminate].
  cbn [getitem bind] in Hret.
  destruct (lattice_from _ _) as [lat|]; [|discriminate].
  cbn [bind] in Hret.
  destruct (Structure_init lat _ _); [discriminate|].
  cbn [run bind] in Hret.
  destruct save.
  - destruct (os_makedirs save_dir_name); [discriminate|].
    cbn [run bind] in Hret.
    destruct (struct_to _ _); [discriminate|].
    cbn [run bind] in Hret. injection Hret as <-. reflexivity.
  - injection Hret as <-. reflexivity.
Qed.

(** In a run of N pairs whose bundles all convert,
    [match_rate] has length N and holds 0 where the distance of the pair is
    infinite, 1 elsewhere. *)
Theorem match_rate_of_converted_run
  (save : bool) (save_dir : string) self (preds gts : list Structure)
  (N : nat) :
  length (pred_arrays_list self) = N ->
  length (gt_arrays_list self) = N ->
  convert save (String.append save_dir "/pred") (pred_arrays_list self)
  = Ok preds ->
  convert save (String.append save_dir "/gt") (gt_arrays_list self)
  = Ok gts ->
  let t := map (pair_distance self) (combine preds gts) in
  exists metrics,
    snd (get_metrics save save_dir self) = Ok metrics
    /\ length (match_rate metrics) = N
    /\ forall i,
         nth_error (match_rate metrics) i
         = option_map (fun d => if finite d then 1%Z else 0%Z) (nth_error t i).
Proof.
  intros Hp Hg Hpreds Hgts t.
  assert (Hlen : length (pred_arrays_list self) = length (gt_arrays_list self))
    by lia.
  rewrite (get_metrics_scored save save_dir self preds gts Hlen Hpreds Hgts).
  cbn [snd]. fold t.
  assert (Hrate : forall m,
             match_rate m = not_isinf_long t ->
             length (match_rate m) = N
             /\ forall i,
                  nth_error (match_rate m) i
                  = option_map (fun d => if finite d then 1%Z else 0%Z)
                      (nth_error t i)).
  { intros m ->. split.
    - rewrite not_isinf_long_length. unfold t.
      rewrite length_map, length_combine.
      apply joblib_map_length in Hpreds, Hgts. lia.
    - intros i. unfold not_isinf_long. rewrite nth_error_map.
      destruct (nth_error t i) as [d|]; [|reflexivity].
      cbn [option_map]. unfold finite. destruct (isinf d); reflexivity. }
  destruct (length (select_not_isinf t) =? 0);
    eexists; (split; [reflexivity|apply Hrate; reflexivity]).
Qed.

(** * Further properties of the structure builder *)

Lemma try_block_is_valid (x : ArrayDict) save dir (struct : Structure) :
  try_block x save dir = Ok struct ->
  prop_valid (properties struct) = true.
Proof.
  unfold try_block. intros Hret.
  destruct (frac_coords x); [|discriminate].
  destruct (atom_types x); [|discriminate].
  destruct (lengths x); [|discriminate].
  destruct (angles x); [|discriminate].
  destruct (sample_idx x) as [idx|]; [|discriminate].
  cbn [getitem bind] in Hret.
  destruct (lattice_from _ _) as [lat|]; [|discriminate].
  cbn [bind] in Hret.
  destruct (Structure_init lat _ _); [discriminate|].
  cbn [run bind] in Hret.
  destruct save.
  - destruct (os_makedirs dir); [discriminate|].
    cbn [run bind] in Hret.
    destruct (struct_to _ _); [discriminate|].
    cbn [run bind] in Hret. injection Hret as <-. reflexivity.
  - injection Hret as <-. reflexivity.
Qed.

Lemma first_missing_key_none (x : ArrayDict) :
  first_missing_key x = None <-> has_keys x = true.
Proof.
  unfold first_missing_key, has_keys.
  destruct (frac_coords x), (atom_types x), (lengths x), (angles x),
    (sample_idx x); split; intros Hx; try discriminate; reflexivity.
Qed.

(** With the five keys present, [array_dict_to_structure] returns exactly
    what the body of [try] returns, a structure flagged valid; whatever the
    body raises (an error of pymatgen, of the file system, ...) comes out
    as [TypeError]. *)
Theorem builder_with_keys_returns_try_or_type_error
  (x : ArrayDict) (save : bool) (save_dir_name : string) :
  has_keys x = true ->
  array_dict_to_structure x save save_dir_name
  = match try_block x save save_dir_name with
    | Ok struct => Ok struct
    | Raise _ => Raise TypeError
    end
  /\ forall struct,
       array_dict_to_structure x save save_dir_name = Ok struct ->
       prop_valid (properties struct) = true.
Proof.
  intros Hkeys. split.
  - unfold array_dict_to_structure.
    destruct (try_block x save save_dir_name); [reflexivity|].
    apply except_block_type_error. exact Hkeys.
  - intros struct Hret.
    apply (try_block_is_valid x save save_dir_name).
    apply array_dict_to_structure_returns_try. exact Hret.
Qed.

(** When keys are missing, the [KeyError] names the first of them in the
    order frac_coords, atom_types, lengths, angles, sample_idx. *)
Theorem builder_reports_first_missing_key
  (x : ArrayDict) (save : bool) (save_dir_name : string) (key : string) :
  first_missing_key x = Some key ->
  array_dict_to_structure x save save_dir_name = Raise (KeyError key).
Proof.
  unfold first_missing_key, array_dict_to_structure, try_block, except_block.
  destruct (frac_coords x); [|intros [= <-]; reflexivity].
  destruct (atom_types x); [|intros [= <-]; reflexivity].
  destruct (lengths x); [|intros [= <-]; reflexivity].
  destruct (angles x); [|intros [= <-]; reflexivity].
  destruct (sample_idx x); [discriminate|intros [= <-]; reflexivity].
Qed.

Lemma lattice_from_arity (v w : pyobj) (lat : Lattice) :
  lattice_from v w = Ok lat ->
  exists l m,
    v = PyList l /\ w = PyList m /\ 6 <= length l + length m <= 8.
Proof.
  unfold lattice_from. intros Hlat.
  destruct v as [p|l], w as [q|m]; try discriminate.
  exists l, m. split; [reflexivity|split; [reflexivity|]].
  cbn [py_add bind star] in Hlat.
  destruct (Nat.le_gt_cases 6 (length (l ++ m))) as [Hlo|Hlo].
  - destruct (Nat.le_gt_cases (length (l ++ m)) 8) as [Hhi|Hhi].
    + rewrite length_app in Hlo, Hhi. lia.
    + rewrite call_from_parameters_arity in Hlat by (right; exact Hhi).
      discriminate.
  - rewrite call_from_parameters_arity in Hlat by (left; exact Hlo).
    discriminate.
Qed.

(** A structure is returned only if the squeezed [lengths] and [angles]
    both convert to lists, and these hold six to eight entries together;
    how the entries divide between the two arrays is not checked. *)
Theorem builder_returns_only_for_six_to_eight_parameters
  (x : ArrayDict) (save : bool) (save_dir_name : string) (struct : Structure) :
  array_dict_to_structure x save save_dir_name = Ok struct ->
  exists l a ls las,
    lengths x = Some l /\ angles x = Some a
    /\ tolist (squeeze l) = PyList ls /\ tolist (squeeze a) = PyList las
    /\ 6 <= length ls + length las <= 8.
Proof.
  intros Hret. apply array_dict_to_structure_returns_try in Hret.
  unfold try_block in Hret.
  destruct (frac_coords x); [|discriminate].
  destruct (atom_types x); [|discriminate].
  destruct (lengths x) as [l|]; [|discriminate].
  destruct (angles x) as [a|]; [|discriminate].
  destruct (sample_idx x) as [idx|]; [|discriminate].
  cbn [getitem bind] in Hret.
  destruct (lattice_from (tolist (squeeze l)) (tolist (squeeze a)))
    as [lat|] eqn:Hlat; [|discriminate].
  destruct (lattice_from_arity _ _ lat Hlat) as (ls & las & Hl & Ha & Hn).
  exists l, a, ls, las. repeat split; try assumption; lia.
Qed.

(** * Further properties of the scoring *)

(** The matcher is called once for a valid pair and not at all for an
    invalid one, and the distance is finite exactly when the pair is valid
    and the matcher returns a sequence that starts with a finite number (an
    empty sequence counts as no match). *)
Theorem distance_is_finite_iff_matcher_gives_finite_head
  self (pred gt : Structure) (is_valid : bool) :
  snd (_get_metrics self pred gt is_valid)
  = (if is_valid then [(pred, gt)] else [])
  /\ (finite (fst (_get_metrics self pred gt is_valid)) = true <->
      is_valid = true
      /\ exists d rest,
           get_rms_dist (matcher self) pred gt = MSeq (d :: rest)
           /\ fst (_get_metrics self pred gt is_valid) = d
           /\ finite d = true).
Proof.
  unfold _get_metrics. destruct is_valid; cbn [negb].
  - destruct (get_rms_dist (matcher self) pred gt) as [e| |[|d rest]];
      cbn [index nth_error fst snd].
    + split; [reflexivity|]. split; [discriminate|].
      intros (_ & d & rest & Hm & _). discriminate.
    + split; [reflexivity|]. split; [discriminate|].
      intros (_ & d & rest & Hm & _). discriminate.
    + split; [reflexivity|]. split; [discriminate|].
      intros (_ & d & rest & Hm & _). discriminate.
    + split; [reflexivity|]. split.
      * intros Hfin. split; [reflexivity|]. exists d, rest.
        repeat split. exact Hfin.
      * intros (_ & d' & rest' & Hm & Hd & Hfin). rewrite Hd. exact Hfin.
  - split; [reflexivity|]. split; [discriminate|].
    intros (Hv & _). discriminate.
Qed.

Lemma joblib_map_forall2 {A B : Type} (f : A -> result B) (l : list A) :
  forall bs, joblib_map f l = Ok bs -> Forall2 (fun a b => f a = Ok b) l bs.
Proof.
  induction l as [|a l IH]; simpl; intros bs Hmap.
  - injection Hmap as <-. constructor.
  - destruct (f a) as [b|e] eqn:Hfa; [|discriminate].
    destruct (joblib_map f l) as [bs'|e]; [|discriminate].
    simpl in Hmap. injection Hmap as <-.
    constructor; [exact Hfa|apply IH; reflexivity].
Qed.

Lemma joblib_map_raise {A B : Type} (f : A -> result B) (l : list A) (e : exn) :
  joblib_map f l = Raise e -> exists a, In a l /\ f a = Raise e.
Proof.
  induction l as [|a l IH]; simpl; intros Hmap; [discriminate|].
  destruct (f a) as [b|e'] eqn:Hfa.
  - destruct (joblib_map f l) as [bs|e'] eqn:Hl; [discriminate|].
    simpl in Hmap. injection Hmap as ->.
    destruct (IH eq_refl) as (a' & Hin & Ha').
    exists a'. split; [right; exact Hin|exact Ha'].
  - simpl in Hmap. injection Hmap as ->.
    exists a. split; [left; reflexivity|exact Hfa].
Qed.

Lemma joblib_map_ok_iff {A B : Type} (f : A -> result B) (l : list A) :
  (exists bs, joblib_map f l = Ok bs)
  <-> Forall (fun a => exists b, f a = Ok b) l.
Proof.
  split.
  - intros [bs Hmap]. apply joblib_map_forall2 in Hmap.
    induction Hmap as [|a b l bs Hab _ IH]; constructor.
    + exists b. exact Hab.
    + exact IH.
  - induction 1 as [|a l [b Hb] _ [bs IH]].
    + exists []. reflexivity.
    + exists (b :: bs). simpl. rewrite Hb. cbn [bind]. rewrite IH. reflexivity.
Qed.

Lemma builder_returns_iff_try_returns (x : ArrayDict) save dir :
  (exists struct, array_dict_to_structure x save dir = Ok struct)
  <-> (exists struct, try_block x save dir = Ok struct).
Proof.
  split; intros [struct Hs]; exists struct.
  - apply array_dict_to_structure_returns_try. exact Hs.
  - unfold array_dict_to_structure. rewrite Hs. reflexivity.
Qed.

Lemma builder_raise_kinds (x : ArrayDict) save dir (e : exn) :
  array_dict_to_structure x save dir = Raise e ->
  e = TypeError \/ exists key, e = KeyError key.
Proof.
  unfold array_dict_to_structure.
  destruct (try_block x save dir); [discriminate|].
  destruct (has_keys x) eqn:Hkeys.
  - rewrite (except_block_type_error x Hkeys). intros [= <-].
    left. reflexivity.
  - destruct (except_block_missing_key x Hkeys) as [key Hkey].
    rewrite Hkey. intros [= <-]. right. exists key. reflexivity.
Qed.

(** The two ways in which the conversion stops [get_metrics]. *)
Lemma get_metrics_pred_conversion_raises save save_dir self (e : exn) :
  length (pred_arrays_list self) = length (gt_arrays_list self) ->
  convert save (String.append save_dir "/pred") (pred_arrays_list self)
  = Raise e ->
  get_metrics save save_dir self = (self, Raise e).
Proof.
  intros Hlen Hpreds. unfold get_metrics, _arrays_to_structures.
  rewrite Hlen, Nat.eqb_refl. cbn [negb]. rewrite Hpreds. reflexivity.
Qed.

Lemma get_metrics_gt_conversion_raises save save_dir self
  (preds : list Structure) (e : exn) :
  length (pred_arrays_list self) = length (gt_arrays_list self) ->
  convert save (String.append save_dir "/pred") (pred_arrays_list self)
  = Ok preds ->
  convert save (String.append save_dir "/gt") (gt_arrays_list self)
  = Raise e ->
  get_metrics save save_dir self = (set_pred_mof_list self preds, Raise e).
Proof.
  intros Hlen Hpreds Hgts. unfold get_metrics, _arrays_to_structures.
  rewrite Hlen, Nat.eqb_refl. cbn [negb]. rewrite Hpreds.
  cbn [set_pred_mof_list gt_arrays_list]. rewrite Hgts. reflexivity.
Qed.

(** The cases of a call of [get_metrics]. *)
Lemma get_metrics_cases save save_dir self :
  length (pred_arrays_list self) <> length (gt_arrays_list self)
  \/ (length (pred_arrays_list self) = length (gt_arrays_list self)
      /\ ((exists e,
              convert save (String.append save_dir "/pred")
                (pred_arrays_list self) = Raise e)
          \/ (exists preds,
                convert save (String.append save_dir "/pred")
                  (pred_arrays_list self) = Ok preds
                /\ ((exists e,
                        convert save (String.append save_dir "/gt")
                          (gt_arrays_list self) = Raise e)
                    \/ (exists gts,
                          convert save (String.append save_dir "/gt")
                            (gt_arrays_list self) = Ok gts))))).
Proof.
  destruct (Nat.eq_dec (length (pred_arrays_list self))
                       (length (gt_arrays_list self))) as [Hlen|Hlen];
    [right; split; [exact Hlen|]|left; exact Hlen].
  destruct (convert save (String.append save_dir "/pred")
              (pred_arrays_list self)) as [preds|e];
    [right; exists preds; split; [reflexivity|]|left; exists e; reflexivity].
  destruct (convert save (String.append save_dir "/gt")
              (gt_arrays_list self)) as [gts|e];
    [right; exists gts; reflexivity|left; exists e; reflexivity].
Qed.

Lemma get_metrics_mismatch save save_dir self :
  length (pred_arrays_list self) <> length (gt_arrays_list self) ->
  get_metrics save save_dir self = (self, Raise AssertionError).
Proof.
  intros Hlen. unfold get_metrics.
  apply Nat.eqb_neq in Hlen. rewrite Hlen. reflexivity.
Qed.

Ltac get_metrics_by_cases save save_dir self :=
  destruct (get_metrics_cases save save_dir self)
    as [Hlen|(Hlen & [(err & Hpreds)|(preds & Hpreds
                                     & [(err & Hgts)|(gts & Hgts)])])];
  [ rewrite (get_metrics_mismatch save save_dir self Hlen)
  | rewrite (get_metrics_pred_conversion_raises save save_dir self err
               Hlen Hpreds)
  | rewrite (get_metrics_gt_conversion_raises save save_dir self preds err
               Hlen Hpreds Hgts)
  | rewrite (get_metrics_scored save save_dir self preds gts
               Hlen Hpreds Hgts) ].

(** [get_metrics] raises nothing but the [AssertionError] of its length
    check and the [TypeError] or [KeyError] that [array_dict_to_structure]
    raises for a bundle: no exception of a collaborator and no [IndexError]
    leaves it. *)
Theorem get_metrics_raises_only_assertion_type_or_key_error
  (save : bool) (save_dir : string) self (e : exn) :
  snd (get_metrics save save_dir self) = Raise e ->
  (e = AssertionError
   /\ length (pred_arrays_list self) <> length (gt_arrays_list self))
  \/ (length (pred_arrays_list self) = length (gt_arrays_list self)
      /\ (e = TypeError \/ exists key, e = KeyError key)).
Proof.
  get_metrics_by_cases save save_dir self; cbn [snd]; intros Hraise.
  - injection Hraise as <-. left. split; [reflexivity|exact Hlen].
  - injection Hraise as <-. right. split; [exact Hlen|].
    destruct (joblib_map_raise _ _ _ Hpreds) as (x & _ & Hx).
    exact (builder_raise_kinds _ _ _ _ Hx).
  - injection Hraise as <-. right. split; [exact Hlen|].
    destruct (joblib_map_raise _ _ _ Hgts) as (x & _ & Hx).
    exact (builder_raise_kinds _ _ _ _ Hx).
  - discriminate.
Qed.

(** [get_metrics] returns exactly when the two lists have the same length
    and the body of [try] succeeds on every queued bundle: one bundle that
    fails to build makes the whole call raise. *)
Theorem get_metrics_returns_iff_every_bundle_builds
  (save : bool) (save_dir : string) self :
  (exists self' metrics, get_metrics save save_dir self = (self', Ok metrics))
  <-> length (pred_arrays_list self) = length (gt_arrays_list self)
      /\ Forall (fun x => exists struct,
                   try_block x save (String.append save_dir "/pred")
                   = Ok struct) (pred_arrays_list self)
      /\ Forall (fun x => exists struct,
                   try_block x save (String.append save_dir "/gt")
                   = Ok struct) (gt_arrays_list self).
Proof.
  assert (Hconv : forall dir l,
             (exists ss, convert save dir l = Ok ss)
             <-> Forall (fun x => exists struct,
                           try_block x save dir = Ok struct) l).
  { intros dir l. unfold convert. rewrite joblib_map_ok_iff.
    split; intros Hall; eapply Forall_impl; try exact Hall;
      intros x Hx; cbv beta in *;
      apply (builder_returns_iff_try_returns x save dir); exact Hx. }
  split.
  - intros (self' & metrics & Hret). revert Hret.
    get_metrics_by_cases save save_dir self; intros Hret; try discriminate.
    split; [exact Hlen|]. split; apply Hconv; eexists; eassumption.
  - intros (Hlen & Hp & Hg).
    apply Hconv in Hp, Hg. destruct Hp as [preds Hpreds], Hg as [gts Hgts].
    rewrite (get_metrics_scored save save_dir self preds gts Hlen Hpreds Hgts).
    eexists. eexists. reflexivity.
Qed.

Lemma forall2_length {A B : Type} (R : A -> B -> Prop) (l : list A)
  (m : list B) :
  Forall2 R l m -> length l = length m.
Proof. induction 1; simpl; congruence. Qed.

Lemma converted_are_built save dir (l : list ArrayDict)
  (structs : list Structure) :
  convert save dir l = Ok structs ->
  Forall2 (fun x struct => try_block x save dir = Ok struct) l structs.
Proof.
  intros Hconv. apply joblib_map_forall2 in Hconv.
  induction Hconv as [|x struct l structs Hx _ IH]; constructor.
  - apply array_dict_to_structure_returns_try. exact Hx.
  - exact IH.
Qed.

Lemma built_are_valid save dir (l : list ArrayDict)
  (structs : list Structure) :
  Forall2 (fun x struct => try_block x save dir = Ok struct) l structs ->
  Forall (fun struct => prop_valid (properties struct) = true) structs.
Proof.
  induction 1 as [|x struct l structs Hx _ IH]; constructor.
  - exact (try_block_is_valid x save dir struct Hx).
  - exact IH.
Qed.

Lemma pair_distance_of_valid self (preds gts : list Structure) :
  Forall (fun struct => prop_valid (properties struct) = true) preds ->
  Forall (fun struct => prop_valid (properties struct) = true) gts ->
  map (pair_distance self) (combine preds gts)
  = map (fun c => fst (_get_metrics self (fst c) (snd c) true))
      (combine preds gts).
Proof.
  intros Hp Hg. apply map_ext_in. intros [p g] Hin.
  unfold pair_distance. cbn [fst snd].
  rewrite Forall_forall in Hp, Hg.
  rewrite (Hp p (in_combine_l _ _ _ _ Hin)),
          (Hg g (in_combine_r _ _ _ _ Hin)).
  reflexivity.
Qed.

(** When [get_metrics] returns, the evaluator holds, position by position,
    the structure that the body of [try] builds from each bundle, and in
    [rms_dists] one distance per pair, each obtained from a call of the
    matcher (every pair is valid); [match_rate] is read off these
    distances. *)
Theorem get_metrics_stores_structures_and_distances
  (save : bool) (save_dir : string) self self' (metrics : Metrics) :
  get_metrics save save_dir self = (self', Ok metrics) ->
  Forall2 (fun x struct =>
             try_block x save (String.append save_dir "/pred") = Ok struct)
    (pred_arrays_list self) (pred_mof_list self')
  /\ Forall2 (fun x struct =>
                try_block x save (String.append save_dir "/gt") = Ok struct)
       (gt_arrays_list self) (gt_mof_list self')
  /\ exists t,
       rms_dists self' = Some t
       /\ t = map (fun c => fst (_get_metrics self (fst c) (snd c) true))
               (combine (pred_mof_list self') (gt_mof_list self'))
       /\ length t = length (pred_arrays_list self)
       /\ match_rate metrics = not_isinf_long t.
Proof.
  get_metrics_by_cases save save_dir self; intros Hret; try discriminate.
  pose proof (converted_are_built _ _ _ _ Hpreds) as Hbp.
  pose proof (converted_are_built _ _ _ _ Hgts) as Hbg.
  injection Hret as <- <-.
  unfold set_rms_dists, set_gt_mof_list, set_pred_mof_list.
  cbn [pred_mof_list gt_mof_list rms_dists].
  split; [exact Hbp|]. split; [exact Hbg|].
  eexists. split; [reflexivity|]. split; [|split].
  - apply pair_distance_of_valid.
    + exact (built_are_valid _ _ _ _ Hbp).
    + exact (built_are_valid _ _ _ _ Hbg).
  - rewrite length_map, length_combine.
    apply forall2_length in Hbp, Hbg. lia.
  - destruct (length (select_not_isinf _) =? 0); reflexivity.
Qed.

Lemma aggregate_shape (t : list pyfloat) (metrics : Metrics) :
  metrics
  = (if length (select_not_isinf t) =? 0
     then {| match_rate := not_isinf_long t;
             rms_dist := repeat (Fin 10) (length (not_isinf_long t)) |}
     else {| match_rate := not_isinf_long t;
             rms_dist := select_not_isinf t |}) ->
  Forall (fun z => z = 0%Z \/ z = 1%Z) (match_rate metrics)
  /\ Forall (fun d => finite d = true) (rms_dist metrics)
  /\ (rms_dist metrics = [] <-> match_rate metrics = [])
  /\ length (rms_dist metrics) <= length (match_rate metrics).
Proof.
  intros ->.
  assert (Hrate : Forall (fun z => z = 0%Z \/ z = 1%Z) (not_isinf_long t)).
  { unfold not_isinf_long. apply Forall_forall. intros z Hz.
    apply in_map_iff in Hz. destruct Hz as (d & <- & _).
    destruct (isinf d); [left|right]; reflexivity. }
  destruct (length (select_not_isinf t) =? 0) eqn:Hzero;
    cbn [match_rate rms_dist].
  - split; [exact Hrate|]. split; [|split].
    + apply Forall_forall. intros d Hd. apply repeat_spec in Hd.
      subst d. reflexivity.
    + destruct (not_isinf_long t); simpl; split; intros; congruence.
    + rewrite repeat_length. lia.
  - apply Nat.eqb_neq in Hzero.
    split; [exact Hrate|]. split; [|split].
    + apply Forall_forall. intros d Hd. apply filter_In in Hd.
      exact (proj2 Hd).
    + split; intros Hnil.
      * rewrite Hnil in Hzero. simpl in Hzero. lia.
      * destruct t; [reflexivity|discriminate].
    + rewrite not_isinf_long_length. apply filter_length_le.
Qed.

(** Whatever [get_metrics] returns is fit for averaging: [match_rate] holds
    only 0 and 1, [rms_dist] holds no infinity, is never longer than
    [match_rate], and is empty only when there was no pair at all. *)
Theorem returned_metrics_are_finite_and_nonempty
  (save : bool) (save_dir : string) self (metrics : Metrics) :
  snd (get_metrics save save_dir self) = Ok metrics ->
  Forall (fun z => z = 0%Z \/ z = 1%Z) (match_rate metrics)
  /\ Forall (fun d => finite d = true) (rms_dist metrics)
  /\ (rms_dist metrics = [] <-> pred_arrays_list self = [])
  /\ length (rms_dist metrics) <= length (match_rate metrics)
  /\ length (match_rate metrics) = length (pred_arrays_list self).
Proof.
  get_metrics_by_cases save save_dir self; cbn [snd]; intros Hret;
    try discriminate.
  injection Hret as Hret. symmetry in Hret.
  destruct (aggregate_shape _ _ Hret) as (Hrate & Hfin & Hnil & Hle).
  assert (Hm : match_rate metrics
               = not_isinf_long (map (pair_distance self)
                                   (combine preds gts))).
  { rewrite Hret. destruct (length (select_not_isinf _) =? 0); reflexivity. }
  assert (HN : length (match_rate metrics) = length (pred_arrays_list self)).
  { rewrite Hm, not_isinf_long_length, length_map, length_combine.
    apply joblib_map_length in Hpreds, Hgts. lia. }
  repeat split; try assumption.
  - intros Hr. apply Hnil in Hr. rewrite Hr in HN. simpl in HN.
    destruct (pred_arrays_list self); [reflexivity|discriminate].
  - intros Hp. apply Hnil. rewrite Hp in HN. simpl in HN.
    destruct (match_rate metrics); [reflexivity|discriminate].
Qed.

(** A conversion that raises leaves [rms_dists] and [gt_mof_list] as they
    were.  When it is a prediction that fails, the evaluator is unchanged;
    when it is a ground truth, [pred_mof_list] has already been replaced by
    the new structures. *)
Theorem failed_conversion_keeps_old_scores
  (save : bool) (save_dir : string) self :
  length (pred_arrays_list self) = length (gt_arrays_list self) ->
  (forall e,
      convert save (String.append save_dir "/pred") (pred_arrays_list self)
      = Raise e ->
      get_metrics save save_dir self = (self, Raise e))
  /\ (forall preds e,
        convert save (String.append save_dir "/pred") (pred_arrays_list self)
        = Ok preds ->
        convert save (String.append save_dir "/gt") (gt_arrays_list self)
        = Raise e ->
        exists self',
          get_metrics save save_dir self = (self', Raise e)
          /\ pred_mof_list self' = preds
          /\ gt_mof_list self' = gt_mof_list self
          /\ rms_dists self' = rms_dists self).
Proof.
  intros Hlen. split.
  - intros e Hpreds.
    exact (get_metrics_pred_conversion_raises save save_dir self e Hlen Hpreds).
  - intros preds e Hpreds Hgts.
    exists (set_pred_mof_list self preds). split; [|repeat split].
    exact (get_metrics_gt_conversion_raises save save_dir self preds e
             Hlen Hpreds Hgts).
Qed.

(** Whatever its outcome, [get_metrics] leaves the matcher, the device and
    the two lists of queued bundles as they were: the bundles stay queued
    until [clear]. *)
Theorem get_metrics_keeps_queued_bundles
  (save : bool) (save_dir : string) self :
  let self' := fst (get_metrics save save_dir self) in
  matcher self' = matcher self
  /\ device self' = device self
  /\ pred_arrays_list self' = pred_arrays_list self
  /\ gt_arrays_list self' = gt_arrays_list self.
Proof.
  get_metrics_by_cases save save_dir self; repeat split.
Qed.

(** A second call of [get_metrics] with the same arguments is the first
    call over again: same outcome, and the evaluator stays as the first
    call left it. *)
Theorem get_metrics_is_idempotent
  (save : bool) (save_dir : string) self :
  get_metrics save save_dir (fst (get_metrics save save_dir self))
  = get_metrics save save_dir self.
Proof.
  get_metrics_by_cases save save_dir self; cbn [fst].
  - apply get_metrics_mismatch. exact Hlen.
  - apply get_metrics_pred_conversion_raises; assumption.
  - rewrite (get_metrics_gt_conversion_raises save save_dir
               (set_pred_mof_list self preds) preds err Hlen Hpreds Hgts).
    reflexivity.
  - rewrite (get_metrics_scored save save_dir
               (set_rms_dists
                  (set_gt_mof_list (set_pred_mof_list self preds) gts)
                  (Some (map (pair_distance self) (combine preds gts))))
               preds gts Hlen Hpreds Hgts).
    reflexivity.
Qed.

(** * Further properties of the accumulation and of the report table *)

(** Appends of predictions and ground truths may interleave in any way:
    each list grows by its own bundles in arrival order, and nothing else
    of the evaluator changes. *)
Theorem appends_keep_arrival_order
  self (stream : list (ArrayDict + ArrayDict)) :
  let self' := fold_left append_array stream self in
  pred_arrays_list self' = pred_arrays_list self ++ preds_of stream
  /\ gt_arrays_list self' = gt_arrays_list self ++ gts_of stream
  /\ pred_mof_list self' = pred_mof_list self
  /\ gt_mof_list self' = gt_mof_list self
  /\ rms_dists self' = rms_dists self
  /\ matcher self' = matcher self.
Proof.
  revert self. induction stream as [|[pred|gt] stream IH]; intros self;
    cbn [fold_left preds_of gts_of append_array].
  - rewrite !app_nil_r. repeat split.
  - destruct (IH (append_pred_array self pred)) as (Hp & Hg & Hrest).
    cbv zeta. rewrite Hp, Hg.
    unfold append_pred_array, set_pred_arrays_list.
    cbn [pred_arrays_list gt_arrays_list].
    rewrite <- app_assoc. split; [reflexivity|]. split; [reflexivity|].
    exact Hrest.
  - destruct (IH (append_gt_array self gt)) as (Hp & Hg & Hrest).
    cbv zeta. rewrite Hp, Hg.
    unfold append_gt_array, set_gt_arrays_list.
    cbn [pred_arrays_list gt_arrays_list].
    rewrite <- app_assoc. split; [reflexivity|]. split; [reflexivity|].
    exact Hrest.
Qed.

Lemma table_loop_forall2 (current_epoch : Z) self (idxs : list nat) :
  forall rows,
    table_loop current_epoch self idxs = Ok rows ->
    Forall2 (fun idx row => table_row current_epoch self idx = Ok row)
      idxs rows.
Proof.
  induction idxs as [|i idxs IH]; intros rows Hloop; cbn [table_loop] in Hloop.
  - injection Hloop as <-. constructor.
  - destruct (table_row current_epoch self i) as [row|e] eqn:Hrow;
      [|discriminate].
    cbn [bind] in Hloop.
    destruct (table_loop current_epoch self idxs) as [rows'|e];
      [|discriminate].
    cbn [bind] in Hloop. injection Hloop as <-.
    constructor; [exact Hrow|apply IH; reflexivity].
Qed.

Lemma forall2_nth_error_r {A B : Type} (R : A -> B -> Prop) (l : list A)
  (m : list B) :
  Forall2 R l m ->
  forall i b, nth_error m i = Some b ->
    exists a, nth_error l i = Some a /\ R a b.
Proof.
  induction 1 as [|a b l m Hab _ IH]; intros [|i] b' Hb; simpl in Hb;
    try discriminate.
  - injection Hb as <-. exists a. split; [reflexivity|exact Hab].
  - exact (IH i b' Hb).
Qed.

Lemma forall2_nth_error_l {A B : Type} (R : A -> B -> Prop) (l : list A)
  (m : list B) :
  Forall2 R l m ->
  forall i a, nth_error l i = Some a ->
    exists b, nth_error m i = Some b /\ R a b.
Proof.
  induction 1 as [|a b l m Hab _ IH]; intros [|i] a' Ha; simpl in Ha;
    try discriminate.
  - injection Ha as <-. exists b. split; [reflexivity|exact Hab].
  - exact (IH i a' Ha).
Qed.

Lemma nth_error_seq_eq (n : nat) :
  forall start i idx, nth_error (seq start n) i = Some idx -> idx = start + i.
Proof.
  induction n as [|n IH]; intros start [|i] idx Hnth; simpl in Hnth;
    try discriminate.
  - injection Hnth as <-. lia.
  - apply IH in Hnth. lia.
Qed.

(** What a row that is produced holds. *)
Lemma table_row_fields (current_epoch : Z) self (idx : nat) (row : Row) :
  table_row current_epoch self idx = Ok row ->
  exists pred_mof gt_mof t rmsd,
    nth_error (pred_mof_list self) idx = Some pred_mof
    /\ nth_error (gt_mof_list self) idx = Some gt_mof
    /\ rms_dists self = Some t
    /\ nth_error t idx = Some rmsd
    /\ col_epoch row = current_epoch
    /\ col_sample_idx row = prop_sample_idx (properties gt_mof)
    /\ col_sample_idx row = prop_sample_idx (properties pred_mof)
    /\ col_rmsd row = rmsd
    /\ col_match row = ne_inf rmsd
    /\ col_valid row = prop_valid (properties pred_mof)
    /\ col_true_2d row
       = match make_wandb_image gt_mof with
         | Ok img => Some img
         | Raise _ => None
         end
    /\ col_pred_2d row
       = match make_wandb_image pred_mof with
         | Ok img => Some img
         | Raise _ => None
         end.
Proof.
  unfold table_row, index. intros Hrow.
  destruct (nth_error (gt_mof_list self) idx) as [gt_mof|]; [|discriminate].
  destruct (nth_error (pred_mof_list self) idx) as [pred_mof|];
    [|discriminate].
  cbn [bind] in Hrow.
  destruct (Z.eqb (prop_sample_idx (properties gt_mof))
                  (prop_sample_idx (properties pred_mof))) eqn:Hsame;
    [|discriminate].
  cbn [negb] in Hrow. apply Z.eqb_eq in Hsame.
  destruct (nth_error (pred_arrays_list self) idx) as [pred_arrays|];
    [|discriminate].
  cbn [bind] in Hrow.
  destruct (getitem "atom_types" (atom_types pred_arrays)); [|discriminate].
  cbn [bind] in Hrow.
  destruct (len _); [|discriminate]. cbn [bind] in Hrow.
  destruct (rms_dists self) as [t|]; [|discriminate]. cbn [bind] in Hrow.
  destruct (nth_error t idx) as [rmsd|] eqn:Hrmsd; [|discriminate].
  cbn [bind] in Hrow.
  destruct (nth_error (gt_arrays_list self) idx) as [gt_arrays|];
    [|discriminate].
  cbn [bind] in Hrow.
  destruct (getitem "atom_types" (atom_types gt_arrays)); [|discriminate].
  cbn [bind] in Hrow.
  destruct (atom_types_text _); [|discriminate]. cbn [bind] in Hrow.
  destruct (atom_types_text _); [|discriminate]. cbn [bind] in Hrow.
  destruct (getitem "lengths" (lengths gt_arrays)); [|discriminate].
  cbn [bind] in Hrow.
  destruct (squeezed_text _); [|discriminate]. cbn [bind] in Hrow.
  destruct (getitem "angles" (angles gt_arrays)); [|discriminate].
  cbn [bind] in Hrow.
  destruct (squeezed_text _); [|discriminate]. cbn [bind] in Hrow.
  destruct (getitem "lengths" (lengths pred_arrays)); [|discriminate].
  cbn [bind] in Hrow.
  destruct (squeezed_text _); [|discriminate]. cbn [bind] in Hrow.
  destruct (getitem "angles" (angles pred_arrays)); [|discriminate].
  cbn [bind] in Hrow.
  destruct (squeezed_text _); [|discriminate]. cbn [bind] in Hrow.
  injection Hrow as <-.
  exists pred_mof, gt_mof, t, rmsd. cbn.
  repeat split; try reflexivity; assumption.
Qed.

(** A table that is returned has one row per stored prediction structure,
    in order; row [i] reports the epoch, the identifier shared by the two
    structures at [i], the stored distance [rms_dists[i]] with the flag
    [rmsd != inf], the validity flag of the prediction, and for each
    structure the image of the renderer or nothing when the renderer
    raised. *)
Theorem table_rows_report_stored_results
  (current_epoch : Z) (save_dir : string) self (rows : list Row) :
  get_wandb_table current_epoch save_dir self = Ok rows ->
  length rows = length (pred_mof_list self)
  /\ forall i row,
       nth_error rows i = Some row ->
       exists pred_mof gt_mof t rmsd,
         nth_error (pred_mof_list self) i = Some pred_mof
         /\ nth_error (gt_mof_list self) i = Some gt_mof
         /\ rms_dists self = Some t
         /\ nth_error t i = Some rmsd
         /\ col_epoch row = current_epoch
         /\ col_sample_idx row = prop_sample_idx (properties gt_mof)
         /\ col_sample_idx row = prop_sample_idx (properties pred_mof)
         /\ col_rmsd row = rmsd
         /\ col_match row = ne_inf rmsd
         /\ col_valid row = prop_valid (properties pred_mof)
         /\ col_true_2d row
            = match make_wandb_image gt_mof with
              | Ok img => Some img
              | Raise _ => None
              end
         /\ col_pred_2d row
            = match make_wandb_image pred_mof with
              | Ok img => Some img
              | Raise _ => None
              end.
Proof.
  unfold get_wandb_table. intros Htable.
  apply table_loop_forall2 in Htable. split.
  - apply forall2_length in Htable. rewrite length_seq in Htable.
    symmetry. exact Htable.
  - intros i row Hrow.
    destruct (forall2_nth_error_r _ _ _ Htable i row Hrow)
      as (idx & Hidx & Hbuilt).
    apply nth_error_seq_eq in Hidx. simpl in Hidx. subst idx.
    exact (table_row_fields current_epoch self i row Hbuilt).
Qed.

Lemma try_block_keeps_sample_idx (x : ArrayDict) save dir
  (struct : Structure) :
  try_block x save dir = Ok struct ->
  sample_idx x = Some (prop_sample_idx (properties struct)).
Proof.
  unfold try_block. intros Hret.
  destruct (frac_coords x); [|discriminate].
  destruct (atom_types x); [|discriminate].
  destruct (lengths x); [|discriminate].
  destruct (angles x); [|discriminate].
  destruct (sample_idx x) as [idx|]; [|discriminate].
  cbn [getitem bind] in Hret.
  destruct (lattice_from _ _) as [lat|]; [|discriminate].
  cbn [bind] in Hret.
  destruct (Structure_init lat _ _); [discriminate|].
  cbn [run bind] in Hret.
  destruct save.
  - destruct (os_makedirs dir); [discriminate|].
    cbn [run bind] in Hret.
    destruct (struct_to _ _); [discriminate|].
    cbn [run bind] in Hret. injection Hret as <-. reflexivity.
  - injection Hret as <-. reflexivity.
Qed.

Lemma get_metrics_returned_inv save save_dir self self' (metrics : Metrics) :
  get_metrics save save_dir self = (self', Ok metrics) ->
  exists t,
    Forall2 (fun x struct =>
               try_block x save (String.append save_dir "/pred") = Ok struct)
      (pred_arrays_list self) (pred_mof_list self')
    /\ Forall2 (fun x struct =>
                  try_block x save (String.append save_dir "/gt") = Ok struct)
         (gt_arrays_list self) (gt_mof_list self')
    /\ rms_dists self' = Some t
    /\ match_rate metrics = not_isinf_long t.
Proof.
  get_metrics_by_cases save save_dir self; intros Hret; try discriminate.
  pose proof (converted_are_built _ _ _ _ Hpreds) as Hbp.
  pose proof (converted_are_built _ _ _ _ Hgts) as Hbg.
  injection Hret as <- <-.
  unfold set_rms_dists, set_gt_mof_list, set_pred_mof_list.
  cbn [pred_mof_list gt_mof_list rms_dists].
  eexists. split; [exact Hbp|]. split; [exact Hbg|].
  split; [reflexivity|].
  destruct (length (select_not_isinf _) =? 0); reflexivity.
Qed.

(** A table built from the evaluator as a returning [get_metrics] left it
    has one row per queued pair.  Row [i] carries the [sample_idx] of both
    bundles at [i], its validity flag is true, and, unless the distance is
    minus infinity, its match flag is set exactly when [match_rate[i]] is
    1. *)
Theorem table_after_get_metrics_agrees_with_metrics
  (save : bool) (save_dir table_dir : string) (current_epoch : Z)
  self self' (metrics : Metrics) (rows : list Row) :
  get_metrics save save_dir self = (self', Ok metrics) ->
  get_wandb_table current_epoch table_dir self' = Ok rows ->
  length rows = length (pred_arrays_list self)
  /\ forall i row,
       nth_error rows i = Some row ->
       col_valid row = true
       /\ (exists pred gt,
             nth_error (pred_arrays_list self) i = Some pred
             /\ nth_error (gt_arrays_list self) i = Some gt
             /\ sample_idx pred = Some (col_sample_idx row)
             /\ sample_idx gt = Some (col_sample_idx row))
       /\ (col_rmsd row <> NegInf ->
           nth_error (match_rate metrics) i
           = Some (if col_match row then 1%Z else 0%Z)).
Proof.
  intros Hmetrics Htable.
  destruct (get_metrics_returned_inv _ _ _ _ _ Hmetrics)
    as (t & Hbp & Hbg & Ht & Hrate).
  unfold get_wandb_table in Htable. apply table_loop_forall2 in Htable.
  split.
  - apply forall2_length in Htable, Hbp. rewrite length_seq in Htable. lia.
  - intros i row Hrow.
    destruct (forall2_nth_error_r _ _ _ Htable i row Hrow)
      as (idx & Hidx & Hbuilt).
    apply nth_error_seq_eq in Hidx. simpl in Hidx. subst idx.
    destruct (table_row_fields current_epoch self' i row Hbuilt)
      as (pred_mof & gt_mof & t' & rmsd & Hp & Hg & Ht' & Hrmsd & _
          & Hsg & Hsp & Hcol & Hmatch & Hvalid & _).
    rewrite Ht in Ht'. injection Ht' as <-.
    destruct (forall2_nth_error_r _ _ _ Hbp i pred_mof Hp)
      as (pred & Hpred & Hpb).
    destruct (forall2_nth_error_r _ _ _ Hbg i gt_mof Hg)
      as (gt & Hgt & Hgb).
    split; [|split].
    + rewrite Hvalid. exact (try_block_is_valid _ _ _ _ Hpb).
    + exists pred, gt. split; [exact Hpred|]. split; [exact Hgt|].
      split.
      * rewrite Hsp. exact (try_block_keeps_sample_idx _ _ _ _ Hpb).
      * rewrite Hsg. exact (try_block_keeps_sample_idx _ _ _ _ Hgb).
    + intros Hneg. rewrite Hrate. unfold not_isinf_long.
      rewrite nth_error_map, Hrmsd. cbn [option_map].
      rewrite Hmatch. rewrite Hcol in Hneg.
      destruct rmsd; try reflexivity. contradiction.
Qed.

Lemma comprehension_total {A B : Type} (f : A -> result B) (l : list A) :
  (forall a, In a l -> exists b, f a = Ok b) ->
  exists bs, comprehension f l = Ok bs.
Proof.
  induction l as [|a l IH]; intros Hall.
  - exists []. reflexivity.
  - destruct (Hall a (or_introl eq_refl)) as [b Hb].
    destruct IH as [bs Hbs]; [intros a' Ha'; apply Hall; right; exact Ha'|].
    exists (b :: bs). cbn [comprehension]. rewrite Hb. cbn [bind].
    rewrite Hbs. reflexivity.
Qed.

Lemma iterate_one_axis (a : ndarray) :
  one_axis a = true ->
  exists ts, iterate a = Ok ts /\ Forall (fun t => shape t = []) ts.
Proof.
  unfold one_axis, iterate. destruct (shape a) as [|n [|? ?]];
    try discriminate.
  intros _. eexists. split; [reflexivity|].
  apply Forall_forall. intros t Ht. apply in_map_iff in Ht.
  destruct Ht as (d & <- & _). reflexivity.
Qed.

Lemma atom_types_text_total (a : ndarray) :
  one_axis a = true -> exists text, atom_types_text a = Ok text.
Proof.
  intros Haxis. unfold atom_types_text.
  destruct (iterate_one_axis a Haxis) as (ts & -> & Hts). cbn [bind].
  destruct (comprehension_total str_int_element ts) as [ss ->].
  - intros t Ht. rewrite Forall_forall in Hts.
    unfold str_int_element. rewrite (Hts t Ht). eexists. reflexivity.
  - eexists. reflexivity.
Qed.

Lemma squeezed_text_total (a : ndarray) :
  one_axis (squeeze a) = true -> exists text, squeezed_text a = Ok text.
Proof.
  intros Haxis. unfold squeezed_text.
  destruct (iterate_one_axis (squeeze a) Haxis) as (ts & -> & Hts).
  cbn [bind].
  destruct (comprehension_total format_element ts) as [ss ->].
  - intros t Ht. rewrite Forall_forall in Hts.
    unfold format_element. rewrite (Hts t Ht). eexists. reflexivity.
  - eexists. reflexivity.
Qed.

Lemma table_row_produced (current_epoch : Z) self (idx : nat)
  (pred_mof gt_mof : Structure) (pred gt : ArrayDict) (t : list pyfloat)
  (rmsd : pyfloat) :
  nth_error (pred_mof_list self) idx = Some pred_mof ->
  nth_error (gt_mof_list self) idx = Some gt_mof ->
  prop_sample_idx (properties gt_mof) = prop_sample_idx (properties pred_mof) ->
  nth_error (pred_arrays_list self) idx = Some pred ->
  nth_error (gt_arrays_list self) idx = Some gt ->
  renders_as_text pred = true ->
  renders_as_text gt = true ->
  rms_dists self = Some t ->
  nth_error t idx = Some rmsd ->
  exists row, table_row current_epoch self idx = Ok row.
Proof.
  intros Hpm Hgm Hsame Hp Hg Hrp Hrg Ht Hrmsd.
  unfold renders_as_text in Hrp, Hrg.
  destruct (atom_types pred) as [pty|] eqn:Hpty; [|discriminate].
  destruct (lengths pred) as [pl|] eqn:Hpl; [|discriminate].
  destruct (angles pred) as [pa|] eqn:Hpa; [|discriminate].
  destruct (atom_types gt) as [gty|] eqn:Hgty; [|discriminate].
  destruct (lengths gt) as [gl|] eqn:Hgl; [|discriminate].
  destruct (angles gt) as [ga|] eqn:Hga; [|discriminate].
  apply andb_prop in Hrp, Hrg.
  destruct Hrp as [Hrp Hpa1], Hrg as [Hrg Hga1].
  apply andb_prop in Hrp, Hrg.
  destruct Hrp as [Hpty1 Hpl1], Hrg as [Hgty1 Hgl1].
  destruct (atom_types_text_total pty Hpty1) as [ptext Hptext].
  destruct (atom_types_text_total gty Hgty1) as [gtext Hgtext].
  destruct (squeezed_text_total pl Hpl1) as [pltext Hpltext].
  destruct (squeezed_text_total pa Hpa1) as [patext Hpatext].
  destruct (squeezed_text_total gl Hgl1) as [gltext Hgltext].
  destruct (squeezed_text_total ga Hga1) as [gatext Hgatext].
  assert (Hlen : exists n, len pty = Ok n).
  { unfold len. unfold one_axis in Hpty1.
    destruct (shape pty) as [|n ?]; [discriminate|]. exists n. reflexivity. }
  destruct Hlen as [n Hn].
  unfold table_row, index. rewrite Hgm, Hpm. cbn [bind].
  apply Z.eqb_eq in Hsame. rewrite Hsame. cbn [negb].
  rewrite Hp. cbn [bind]. rewrite Hpty. cbn [getitem bind].
  rewrite Hn. cbn [bind]. rewrite Ht. cbn [bind]. rewrite Hrmsd.
  cbn [bind]. rewrite Hg. cbn [bind]. rewrite Hgty. cbn [getitem bind].
  rewrite Hgtext. cbn [bind]. rewrite Hptext. cbn [bind].
  rewrite Hgl. cbn [getitem bind]. rewrite Hgltext. cbn [bind].
  rewrite Hga. cbn [getitem bind]. rewrite Hgatext. cbn [bind].
  rewrite Hpl. cbn [getitem bind]. rewrite Hpltext. cbn [bind].
  rewrite Hpa. cbn [getitem bind]. rewrite Hpatext. cbn [bind].
  eexists. reflexivity.
Qed.

Lemma table_loop_total (current_epoch : Z) self (idxs : list nat) :
  (forall idx, In idx idxs ->
     exists row, table_row current_epoch self idx = Ok row) ->
  exists rows, table_loop current_epoch self idxs = Ok rows.
Proof.
  induction idxs as [|idx idxs IH]; intros Hall.
  - exists []. reflexivity.
  - destruct (Hall idx (or_introl eq_refl)) as [row Hrow].
    destruct IH as [rows Hrows];
      [intros idx' Hin; apply Hall; right; exact Hin|].
    exists (row :: rows). cbn [table_loop]. rewrite Hrow. cbn [bind].
    rewrite Hrows. reflexivity.
Qed.

(** After a returning [get_metrics], [get_wandb_table] returns a table as
    soon as, at every position, the two bundles carry the same [sample_idx]
    and can be rendered as text ([atom_types] with one axis, [lengths] and
    [angles] with one axis once squeezed): whatever the renderer does. *)
Theorem table_is_produced_for_aligned_one_axis_bundles
  (save : bool) (save_dir table_dir : string) (current_epoch : Z)
  self self' (metrics : Metrics) :
  get_metrics save save_dir self = (self', Ok metrics) ->
  Forall2 (fun pred gt =>
             sample_idx pred = sample_idx gt
             /\ renders_as_text pred = true
             /\ renders_as_text gt = true)
    (pred_arrays_list self) (gt_arrays_list self) ->
  exists rows,
    get_wandb_table current_epoch table_dir self' = Ok rows
    /\ length rows = length (pred_arrays_list self).
Proof.
  get_metrics_by_cases save save_dir self; intros Hret Hpairs;
    try discriminate.
  pose proof (converted_are_built _ _ _ _ Hpreds) as Hbp.
  pose proof (converted_are_built _ _ _ _ Hgts) as Hbg.
  injection Hret as <- _.
  assert (Hrows : exists rows,
             table_loop current_epoch
               (set_rms_dists
                  (set_gt_mof_list (set_pred_mof_list self preds) gts)
                  (Some (map (pair_distance self) (combine preds gts))))
               (seq 0 (length preds)) = Ok rows).
  { apply table_loop_total. intros idx Hidx. apply in_seq in Hidx.
    destruct (nth_error_in_range preds idx) as [pred_mof Hpm]; [lia|].
    destruct (forall2_nth_error_r _ _ _ Hbp idx pred_mof Hpm)
      as (pred & Hpred & Hpb).
    destruct (forall2_nth_error_l _ _ _ Hpairs idx pred Hpred)
      as (gt & Hgt & Hsame & Hrp & Hrg).
    destruct (forall2_nth_error_l _ _ _ Hbg idx gt Hgt)
      as (gt_mof & Hgm & Hgb).
    apply (table_row_produced current_epoch _ idx pred_mof gt_mof pred gt
             (map (pair_distance self) (combine preds gts))
             (pair_distance self (pred_mof, gt_mof)));
      try assumption; try reflexivity.
    - apply try_block_keeps_sample_idx in Hpb, Hgb.
      rewrite Hsame, Hgb in Hpb. injection Hpb as Hpb. exact Hpb.
    - rewrite nth_error_map, nth_error_combine, Hpm, Hgm. reflexivity. }
  destruct Hrows as [rows Hrows]. exists rows.
  unfold get_wandb_table. split; [exact Hrows|].
  apply table_loop_forall2 in Hrows. apply forall2_length in Hrows.
  rewrite length_seq in Hrows. apply forall2_length in Hbp.
  cbn [pred_mof_list set_rms_dists set_gt_mof_list set_pred_mof_list]
    in Hrows.
  lia.
Qed.

End Properties.

(** * The claims on concrete runs of the laboratory *)

(** C1 as stated fails: a dict without the key ["lengths"] makes
    [array_dict_to_structure] raise [KeyError]. *)
Lemma builder_raises_on_missing_key :
  array_dict_to_structure (no_lengths 7) false "" = Raise (KeyError "lengths").
Proof. reflexivity. Qed.

Lemma builder_returns_built_structure_or_key_error_witness :
  array_dict_to_structure (carbon 7) true "out/pred"
  = Ok (lab_structure 6 7 true)
  /\ exists key,
      array_dict_to_structure (no_lengths 7) false "" = Raise (KeyError key).
Proof.
  split.
  - apply (proj1 (builder_returns_built_structure_or_key_error
                    (carbon 7) true "out/pred")
             (mk_ndarray [1; 3] [0; 0; 0]%Q) (mk_ndarray [1] [6]%Q)
             (mk_ndarray [1; 3] [5; 5; 5]%Q)
             (mk_ndarray [1; 3] [90; 90; 90]%Q) 7%Z lab_lattice).
    + reflexivity.
    + reflexivity.
    + reflexivity.
    + intros _. split; reflexivity.
  - apply (proj2 (builder_returns_built_structure_or_key_error
                    (no_lengths 7) false "")).
    reflexivity.
Defined.

Lemma get_metrics_length_mismatch_asserts_witness :
  get_metrics false "" (fed [carbon 1] [])
  = (fed [carbon 1] [], Raise AssertionError).
Proof.
  apply get_metrics_length_mismatch_asserts. simpl. discriminate.
Defined.

Lemma pair_failures_are_absorbed_witness :
  _get_metrics lab_run_one_miss lab_no_sites (lab_structure 6 1 true) true
  = (PosInf, [(lab_no_sites, lab_structure 6 1 true)])
  /\ _get_metrics lab_run_one_miss
       (lab_structure 6 2 true) (lab_structure 8 2 true) true
     = (PosInf, [(lab_structure 6 2 true, lab_structure 8 2 true)])
  /\ _get_metrics lab_run_one_miss
       (lab_structure 6 1 true) (lab_structure 6 1 true) true
     = (Fin 0, [(lab_structure 6 1 true, lab_structure 6 1 true)])
  /\ exists self' metrics,
       get_metrics false "" lab_run_one_miss = (self', Ok metrics)
       /\ rms_dists self' = Some [Fin 0; PosInf; Fin 0].
Proof.
  split; [|split; [|split]].
  - apply (proj1 (proj2 (pair_failures_are_absorbed lab_run_one_miss
                           lab_no_sites (lab_structure 6 1 true)))
             (LibraryError 3)).
    reflexivity.
  - apply (proj1 (proj2 (proj2 (pair_failures_are_absorbed lab_run_one_miss
                                   (lab_structure 6 2 true)
                                   (lab_structure 8 2 true))))).
    reflexivity.
  - apply (proj1 (proj2 (proj2 (proj2 (pair_failures_are_absorbed
                                           lab_run_one_miss
                                           (lab_structure 6 1 true)
                                           (lab_structure 6 1 true)))))
             (Fin 0) [Fin 0]).
    reflexivity.
  - destruct (proj2 (proj2 (proj2 (proj2 (pair_failures_are_absorbed
                                            lab_run_one_miss
                                            (lab_structure 6 1 true)
                                            (lab_structure 6 1 true)))))
                false ""
                [lab_structure 6 1 true; lab_structure 6 2 true;
                 lab_structure 6 3 true]
                [lab_structure 6 1 true; lab_structure 8 2 true;
                 lab_structure 6 3 true])
      as (self' & metrics & Hrun & Hdists); [reflexivity..|].
    exists self', metrics. split; [exact Hrun|exact Hdists].
Defined.

Lemma no_finite_distance_gives_sentinel_rms_witness :
  snd (get_metrics false "" lab_run_all_miss)
  = Ok {| match_rate := [0%Z; 0%Z]; rms_dist := [Fin 10; Fin 10] |}
  /\ length [Fin 10; Fin 10] = 2.
Proof.
  apply (no_finite_distance_gives_sentinel_rms false "" lab_run_all_miss
           [lab_structure 6 1 true; lab_structure 6 2 true]
           [lab_structure 8 1 true; lab_structure 8 2 true] 2);
    try reflexivity.
  repeat constructor.
Defined.

Lemma finite_distances_kept_in_order_witness :
  exists metrics,
    snd (get_metrics false "" lab_run_one_miss) = Ok metrics
    /\ length [Fin 0; PosInf; Fin 0] = 3
    /\ rms_dist metrics = [Fin 0; Fin 0]
    /\ length (rms_dist metrics) = 2
    /\ Forall (fun d => finite d = true) (rms_dist metrics).
Proof.
  edestruct (finite_distances_kept_in_order false "" lab_run_one_miss
               [lab_structure 6 1 true; lab_structure 6 2 true;
                lab_structure 6 3 true]
               [lab_structure 6 1 true; lab_structure 8 2 true;
                lab_structure 6 3 true] 3 2)
    as (metrics & Hrun & Hlen & Hrms & Hm & Hfin);
    [reflexivity | reflexivity | reflexivity | reflexivity | reflexivity
    | lia |].
  exists metrics. repeat split; assumption.
Defined.

Lemma table_requires_matching_sample_idx_witness :
  (exists rows,
      get_wandb_table 3 "" lab_scored_same_idx = Ok rows /\ length rows = 1)
  /\ prop_sample_idx (properties (lab_structure 6 1 true))
     = prop_sample_idx (properties (lab_structure 6 1 true))
  /\ table_row 3 lab_scored_other_idx 1 = Raise AssertionError
  /\ get_wandb_table 3 "" lab_scored_other_idx = Raise AssertionError.
Proof.
  split; [|split; [|split]].
  - eexists. split; reflexivity.
  - eapply (proj1 (table_requires_matching_sample_idx 3 ""
                     lab_scored_same_idx))
      with (idx := 0) (pred_mof := lab_structure 6 1 true)
           (gt_mof := lab_structure 6 1 true);
      reflexivity.
  - apply (proj2 (table_requires_matching_sample_idx 3 "" lab_scored_other_idx)
             1 (lab_structure 6 2 true) (lab_structure 8 5 true));
      [reflexivity|reflexivity|discriminate].
  - apply (proj2 (table_requires_matching_sample_idx 3 "" lab_scored_other_idx)
             1 (lab_structure 6 2 true) (lab_structure 8 5 true));
      [reflexivity|reflexivity|discriminate|].
    intros j Hj. assert (j = 0) as -> by lia.
    eexists. reflexivity.
Defined.

Lemma match_rate_of_converted_run_witness :
  exists metrics,
    snd (get_metrics false "" lab_run_one_miss) = Ok metrics
    /\ length (match_rate metrics) = 3
    /\ forall i,
         nth_error (match_rate metrics) i
         = option_map (fun d => if finite d then 1%Z else 0%Z)
             (nth_error [Fin 0; PosInf; Fin 0] i).
Proof.
  edestruct (match_rate_of_converted_run false "" lab_run_one_miss
               [lab_structure 6 1 true; lab_structure 6 2 true;
                lab_structure 6 3 true]
               [lab_structure 6 1 true; lab_structure 8 2 true;
                lab_structure 6 3 true] 3)
    as (metrics & Hrun & Hlen & Hrate); [reflexivity..|].
  exists metrics. repeat split; assumption.
Defined.

Lemma returned_structure_keeps_sample_idx_witness :
  sample_idx (carbon 7)
  = Some (prop_sample_idx (properties (lab_structure 6 7 true))).
Proof.
  apply (returned_structure_keeps_sample_idx (carbon 7) true "out/pred").
  reflexivity.
Defined.

(** The laboratory rejects two species for one site, and the function
    raises [TypeError] although every array has its documented shape. *)
Example lab_mismatched_counts_raise :
  try_block (two_species_one_site 7) false "" = Raise (LibraryError 2)
  /\ array_dict_to_structure (two_species_one_site 7) false ""
     = Raise TypeError.
Proof. split; reflexivity. Qed.

(** * The further properties on concrete runs of the laboratory *)

Lemma builder_with_keys_returns_try_or_type_error_witness :
  try_block (two_species_one_site 7) false "" = Raise (LibraryError 2)
  /\ array_dict_to_structure (two_species_one_site 7) false ""
     = Raise TypeError.
Proof.
  split; [reflexivity|].
  exact (proj1 (builder_with_keys_returns_try_or_type_error
                  (two_species_one_site 7) false "" eq_refl)).
Defined.

Lemma builder_reports_first_missing_key_witness :
  array_dict_to_structure (no_types_no_angles 7) false ""
  = Raise (KeyError "atom_types").
Proof.
  apply builder_reports_first_missing_key. reflexivity.
Defined.

Lemma builder_returns_only_for_six_to_eight_parameters_witness :
  exists l a ls las,
    lengths (carbon 7) = Some l /\ angles (carbon 7) = Some a
    /\ tolist (squeeze l) = PyList ls /\ tolist (squeeze a) = PyList las
    /\ 6 <= length ls + length las <= 8.
Proof.
  apply (builder_returns_only_for_six_to_eight_parameters
           (carbon 7) false "" (lab_structure 6 7 true)).
  reflexivity.
Defined.

Lemma get_metrics_raises_only_assertion_type_or_key_error_witness :
  (TypeError = AssertionError
   /\ length (pred_arrays_list (fed [two_lengths 1] [carbon 1]))
      <> length (gt_arrays_list (fed [two_lengths 1] [carbon 1])))
  \/ (length (pred_arrays_list (fed [two_lengths 1] [carbon 1]))
      = length (gt_arrays_list (fed [two_lengths 1] [carbon 1]))
      /\ (TypeError = TypeError \/ exists key, TypeError = KeyError key)).
Proof.
  apply (get_metrics_raises_only_assertion_type_or_key_error false ""
           (fed [two_lengths 1] [carbon 1]) TypeError).
  reflexivity.
Defined.

Lemma get_metrics_stores_structures_and_distances_witness :
  exists t,
    rms_dists lab_scored_one_miss = Some t
    /\ length t = 3
    /\ match_rate lab_metrics_one_miss = not_isinf_long t.
Proof.
  assert (Hrun : get_metrics false "" lab_run_one_miss
                 = (lab_scored_one_miss, Ok lab_metrics_one_miss))
    by reflexivity.
  destruct (get_metrics_stores_structures_and_distances false ""
              lab_run_one_miss lab_scored_one_miss lab_metrics_one_miss
              Hrun)
    as (_ & _ & t & Ht & _ & Hlen & Hrate).
  exists t. split; [exact Ht|]. split; [exact Hlen|exact Hrate].
Defined.

Lemma returned_metrics_are_finite_and_nonempty_witness :
  Forall (fun d => finite d = true) [Fin 10; Fin 10]
  /\ length [Fin 10; Fin 10] <= length [0%Z; 0%Z].
Proof.
  assert (Hrun : snd (get_metrics false "" lab_run_all_miss)
                 = Ok {| match_rate := [0%Z; 0%Z];
                         rms_dist := [Fin 10; Fin 10] |})
    by reflexivity.
  destruct (returned_metrics_are_finite_and_nonempty false ""
              lab_run_all_miss _ Hrun)
    as (_ & Hfin & _ & Hle & _).
  split; [exact Hfin|exact Hle].
Defined.

Lemma failed_conversion_keeps_old_scores_witness :
  exists self',
    get_metrics false "" lab_run_bad_gt = (self', Raise TypeError)
    /\ pred_mof_list self' = [lab_structure 6 1 true]
    /\ gt_mof_list self' = []
    /\ rms_dists self' = None.
Proof.
  assert (Hlen : length (pred_arrays_list lab_run_bad_gt)
                 = length (gt_arrays_list lab_run_bad_gt))
    by reflexivity.
  destruct (proj2 (failed_conversion_keeps_old_scores false ""
                     lab_run_bad_gt Hlen)
              [lab_structure 6 1 true] TypeError)
    as (self' & Hrun & Hp & Hg & Hr); [reflexivity|reflexivity|].
  exists self'. repeat split; assumption.
Defined.

Lemma table_rows_report_stored_results_witness :
  exists rows,
    get_wandb_table 3 "" lab_scored_one_miss = Ok rows /\ length rows = 3.
Proof.
  destruct (get_wandb_table 3 "" lab_scored_one_miss) as [rows|e] eqn:Htable;
    [|discriminate].
  exists rows. split; [reflexivity|].
  exact (proj1 (table_rows_report_stored_results 3 "" lab_scored_one_miss
                  rows Htable)).
Defined.

Lemma table_after_get_metrics_agrees_with_metrics_witness :
  exists rows,
    get_wandb_table 3 "" lab_scored_one_miss = Ok rows
    /\ length rows = length (pred_arrays_list lab_run_one_miss).
Proof.
  destruct (get_wandb_table 3 "" lab_scored_one_miss) as [rows|e] eqn:Htable;
    [|discriminate].
  exists rows. split; [reflexivity|].
  assert (Hrun : get_metrics false "" lab_run_one_miss
                 = (lab_scored_one_miss, Ok lab_metrics_one_miss))
    by reflexivity.
  exact (proj1 (table_after_get_metrics_agrees_with_metrics false "" "" 3
                  lab_run_one_miss lab_scored_one_miss lab_metrics_one_miss
                  rows Hrun Htable)).
Defined.

Lemma table_is_produced_for_aligned_one_axis_bundles_witness :
  exists rows,
    get_wandb_table 3 "" lab_scored_one_miss = Ok rows
    /\ length rows = length (pred_arrays_list lab_run_one_miss).
Proof.
  assert (Hrun : get_metrics false "" lab_run_one_miss
                 = (lab_scored_one_miss, Ok lab_metrics_one_miss))
    by reflexivity.
  apply (table_is_produced_for_aligned_one_axis_bundles false "" "" 3
           lab_run_one_miss lab_scored_one_miss lab_metrics_one_miss Hrun).
  repeat constructor.
Defined.

(** Why minus infinity is set apart: the table's flag [rmsd != inf] holds
    for it, [match_rate] counts it as no match. *)
Example minus_infinity_is_a_match_in_the_table_only :
  ne_inf NegInf = true /\ not_isinf_long [NegInf] = [0%Z].
Proof. split; reflexivity. Qed.
